(** * ui-screenshot-to-prompt: the analysis pipeline of [core/main.ts] and
      the configuration and prompt templates of [core/config.ts].

    JavaScript strings are sequences of UTF-16 code units; the embedding keeps
    them as lists of code units so that [split], [slice], [trim], [substring]
    and template literals read as the list operations they are.

    An [async] function is a computation over the world (the module variables
    of [config.ts], [localStorage], the provider behind [fetch]) that returns
    a value or throws; [await] is sequencing.  The calls to the logger only
    write to the console and are left out; in their place the history of the
    world records the entry of each stage and every request sent.  One
    logger line can throw and is kept for that: the first line of
    [analyzeDetection] converts the detection label to a string. *)

From Stdlib Require Import String Ascii.
From Stdlib Require Import List NArith ZArith QArith Lia Bool.
From Stdlib Require Import Decimal.
Import ListNotations.
Close Scope Q_scope.

Set Implicit Arguments.
Set Warnings "-register-all".

(** ** Strings *)

Module JSString.

Definition code_unit := N.
Definition jsstring := list code_unit.

Local Open Scope N_scope.

(** Source literals are written as Rocq strings (UTF-8 bytes) and decoded to
    code units: the templates of [config.ts] contain the bullet U+2022. *)
Fixpoint utf16_of_utf8 (bs : list N) : jsstring :=
  match bs with
  | [] => []
  | b :: r =>
    if b <? 128 then b :: utf16_of_utf8 r
    else if b <? 224 then
      match r with
      | b1 :: r1 => ((b - 192) * 64 + (b1 - 128)) :: utf16_of_utf8 r1
      | [] => [b]
      end
    else if b <? 240 then
      match r with
      | b1 :: b2 :: r2 =>
        ((b - 224) * 4096 + (b1 - 128) * 64 + (b2 - 128)) :: utf16_of_utf8 r2
      | _ => [b]
      end
    else
      match r with
      | b1 :: b2 :: b3 :: r3 =>
        let cp := (b - 240) * 262144 + (b1 - 128) * 4096
                  + (b2 - 128) * 64 + (b3 - 128) - 65536 in
        (55296 + cp / 1024) :: (56320 + cp mod 1024) :: utf16_of_utf8 r3
      | _ => [b]
      end
  end.

Fixpoint bytes_of_string (s : string) : list N :=
  match s with
  | EmptyString => []
  | String a r => N_of_ascii a :: bytes_of_string r
  end.

Definition lit (s : string) : jsstring := utf16_of_utf8 (bytes_of_string s).

Definition LF : code_unit := 10.

(** WhiteSpace and LineTerminator code units, as [String.prototype.trim]
    strips them. *)
Definition is_whitespace (c : code_unit) : bool :=
  ((9 <=? c) && (c <=? 13)) || (c =? 32) || (c =? 160) || (c =? 5760)
  || ((8192 <=? c) && (c <=? 8202)) || (c =? 8232) || (c =? 8233)
  || (c =? 8239) || (c =? 8287) || (c =? 12288) || (c =? 65279).

Fixpoint trimStart (s : jsstring) : jsstring :=
  match s with
  | [] => []
  | c :: r => if is_whitespace c then trimStart r else s
  end.

Definition trimEnd (s : jsstring) : jsstring :=
  fold_right
    (fun c acc =>
       match acc with
       | [] => if is_whitespace c then [] else [c]
       | _ :: _ => c :: acc
       end) [] s.

Definition trim (s : jsstring) : jsstring := trimEnd (trimStart s).

(** [s.split(sep)] for a one-unit separator: never the empty array. *)
Fixpoint split (sep : code_unit) (s : jsstring) : list jsstring :=
  match s with
  | [] => [[]]
  | c :: r =>
    if c =? sep then [] :: split sep r
    else match split sep r with
         | h :: t => (c :: h) :: t
         | [] => [[c]]
         end
  end.

(** [a.join(sep)] on an array of strings. *)
Fixpoint join (sep : jsstring) (a : list jsstring) : jsstring :=
  match a with
  | [] => []
  | [x] => x
  | x :: r => x ++ sep ++ join sep r
  end.

(** [s.substring(0, n)] for a literal [n >= 0]. *)
Definition substring0 (n : nat) (s : jsstring) : jsstring := firstn n s.

(** [s.charAt(0).toUpperCase() + s.slice(1)].  The only string this is ever
    applied to is the detection term, which [config.ts] sets to ['component']
    at both of its assignments; the case mapping is written for the letters
    a-z and leaves every other unit as it is. *)
Definition toUpperCase_unit (c : code_unit) : code_unit :=
  if (97 <=? c) && (c <=? 122) then c - 32 else c.

Definition capitalize (s : jsstring) : jsstring :=
  match s with
  | [] => []
  | c :: r => toUpperCase_unit c :: r
  end.

(** Decimal rendering of an array index (a non-negative integer). *)
Fixpoint digits (u : Decimal.uint) : jsstring :=
  match u with
  | Nil => []
  | D0 r => 48 :: digits r
  | D1 r => 49 :: digits r
  | D2 r => 50 :: digits r
  | D3 r => 51 :: digits r
  | D4 r => 52 :: digits r
  | D5 r => 53 :: digits r
  | D6 r => 54 :: digits r
  | D7 r => 55 :: digits r
  | D8 r => 56 :: digits r
  | D9 r => 57 :: digits r
  end.

Definition string_of_index (n : nat) : jsstring := digits (Nat.to_uint n).

(** [p] is a prefix of [s]: [s.startsWith(p)]. *)
Definition starts_with (p s : jsstring) : Prop := exists t, s = p ++ t.

Fixpoint starts_withb (p s : jsstring) : bool :=
  match p, s with
  | [], _ => true
  | _ :: _, [] => false
  | a :: p', b :: s' => (a =? b) && starts_withb p' s'
  end.

End JSString.
Export JSString.

(** ** Arrays *)

(** [a.slice(start, end)] with the relative (negative) indices of
    [Array.prototype.slice] written out. *)
Definition js_slice {A} (start stop : Z) (a : list A) : list A :=
  let len := Z.of_nat (length a) in
  let k := if (start <? 0)%Z then Z.max (len + start) 0 else Z.min start len in
  let final := if (stop <? 0)%Z then Z.max (len + stop) 0 else Z.min stop len in
  firstn (Z.to_nat (final - k)) (skipn (Z.to_nat k) a).

(** [a.map((x, i) => f x i)], the index starting at [i0]. *)
Fixpoint mapi_from {A B} (f : A -> nat -> B) (i0 : nat) (a : list A) : list B :=
  match a with
  | [] => []
  | x :: r => f x i0 :: mapi_from f (S i0) r
  end.

Definition mapi {A B} (f : A -> nat -> B) (a : list A) : list B :=
  mapi_from f 0 a.

(** ** Values of the runtime *)

(** The IEEE numbers of the runtime are kept abstract: the pipeline only
    tests them for truthiness, passes them through and (inside template
    literals) converts them to strings. *)
Class JSNumber := {
  number : Type;
  num_zero : number;                  (* the literal [0] *)
  num_one : number;                   (* the literal [1.0] *)
  num_truthy : number -> bool;        (* neither [0], [-0] nor [NaN] *)
  num_toString : number -> jsstring
}.

Definition jsstring_dec : forall a b : jsstring, {a = b} + {a <> b} :=
  list_eq_dec N.eq_dec.

(** What a [throw] carries, and the outcome of a computation that may throw. *)
Inductive exn :=
| Error (message : jsstring)
| TypeError
| SyntaxError.

Inductive result (A : Type) :=
| Ok (a : A)
| Throw (e : exn).
Arguments Ok {A} a.
Arguments Throw {A} e.

Section Values.
Context {Num : JSNumber}.

(** What [JSON.parse] can return, plus [undefined] for missing properties. *)
Inductive value :=
| VUndefined
| VNull
| VBool (b : bool)
| VNum (n : number)
| VStr (s : jsstring)
| VArr (elements : list value)
| VObj (fields : list (jsstring * value)).

Definition truthy (v : value) : bool :=
  match v with
  | VUndefined | VNull => false
  | VBool b => b
  | VNum n => num_truthy n
  | VStr s => match s with [] => false | _ :: _ => true end
  | VArr _ | VObj _ => true
  end.

(** [a || b] *)
Definition or_else (a b : value) : value := if truthy a then a else b.

(** [v === 'text'] *)
Definition strict_eq_str (v : value) (s : jsstring) : bool :=
  match v with
  | VStr t => if jsstring_dec t s then true else false
  | _ => false
  end.

Fixpoint lookup (k : jsstring) (fields : list (jsstring * value)) : option value :=
  match fields with
  | [] => None
  | (k', v) :: r => if jsstring_dec k k' then Some v else lookup k r
  end.

(** [v.k] for the property names the pipeline reads ([components], [bbox],
    [box], [x], [y], [width], [height], [type], [confidence], [text],
    [location]): a TypeError on [null] and [undefined], the own property of
    an object, [undefined] on everything else (none of these names is a
    property of a number, boolean, string or array). *)
Definition get_prop (v : value) (k : jsstring) : result value :=
  match v with
  | VUndefined | VNull => Throw TypeError
  | VObj fields =>
    match lookup k fields with
    | Some x => Ok x
    | None => Ok VUndefined
    end
  | _ => Ok VUndefined
  end.

(** Truthiness of [v.length]: the element count of an array or a string,
    the own property of an object, [undefined] otherwise. *)
Definition length_truthy (v : value) : result bool :=
  match v with
  | VUndefined | VNull => Throw TypeError
  | VArr a => Ok (negb (Nat.eqb (length a) 0))
  | VStr s => Ok (negb (Nat.eqb (length s) 0))
  | VObj fields =>
    match lookup (lit "length") fields with
    | Some x => Ok (truthy x)
    | None => Ok false
    end
  | _ => Ok false
  end.

(** [Array.isArray(v)] *)
Definition isArray (v : value) : bool :=
  match v with VArr _ => true | _ => false end.

(** String conversion inside a template literal.  An array is converted by
    [Array.prototype.join], which converts its elements in turn ([null] and
    [undefined] to the empty string).  A parsed object inherits
    [Object.prototype.toString] unless it has a key [toString] of its own:
    the value under that key is never a function, [valueOf] returns the
    object itself, and the conversion ends in a TypeError. *)
Fixpoint ToString (v : value) : result jsstring :=
  match v with
  | VUndefined => Ok (lit "undefined")
  | VNull => Ok (lit "null")
  | VBool true => Ok (lit "true")
  | VBool false => Ok (lit "false")
  | VNum n => Ok (num_toString n)
  | VStr s => Ok s
  | VArr a =>
    match
      (fix elements (l : list value) : result (list jsstring) :=
         match l with
         | [] => Ok []
         | x :: r =>
           match match x with
                 | VUndefined | VNull => Ok []
                 | _ => ToString x
                 end with
           | Ok s =>
             match elements r with
             | Ok ss => Ok (s :: ss)
             | Throw e => Throw e
             end
           | Throw e => Throw e
           end
         end) a
    with
    | Ok parts => Ok (join (lit ",") parts)
    | Throw e => Throw e
    end
  | VObj fields =>
    match lookup (lit "toString") fields with
    | Some _ => Throw TypeError
    | None => Ok (lit "[object Object]")
    end
  end.

End Values.

Arguments value : clear implicits.
Arguments value {Num}.

(** ** The world around the pipeline *)

(** [types.ts]: [type DetectionMethod = 'llm']. *)
Inductive DetectionMethod := llm.

(** The two long prompt constants of [config.ts] are referred to by name;
    the other system prompts are short literals. *)
Inductive SystemPrompt :=
| MAIN_DESIGN_ANALYSIS_PROMPT
| VISION_ANALYSIS_PROMPT
| SystemText (text : jsstring).

(** A user prompt is its text, except for the detector's: that one is the
    fixed instruction template of [getComponents], which interpolates only
    [maxComponents], and is referred to by that number. *)
Inductive UserPrompt :=
| UserText (text : jsstring)
| DetectionPrompt (maxComponents : Z).

(** The body and headers that [callVisionAPI] hands to [fetch]. *)
Record Request := {
  url : jsstring;
  bearer : jsstring;
  model : jsstring;
  system : SystemPrompt;
  user : UserPrompt;
  image_base64 : jsstring;
  max_tokens : nat;
  temperature : Q;
  json_object : bool
}.

(** What comes back from [fetch]:  a rejection (network failure, a body that
    is not JSON, a body without [choices[0].message.content]), a response
    that is not [ok] with its error message, or the content of the reply. *)
Inductive FetchOutcome :=
| Rejected (e : exn)
| NotOk (message : jsstring)
| Reply (content : jsstring).

Section Program.
Context {Num : JSNumber}.

(** The history of a run: the entry of each stage with its arguments (where
    the stages log that they start), and the requests handed to [fetch]. *)
Inductive Event :=
| Fetch (r : Request)
| Enter_getComponents
| Enter_analyzeMainDesignChoices
| Enter_describeActivity
| Enter_analyzeDetection (index : nat) (location : value)
| Enter_callSuperPrompt (mainImageCaption : jsstring)
                        (componentCaptions : list jsstring)
                        (activityDescription : jsstring).

(** The module-level variables of [config.ts], the two [localStorage] keys
    that [callVisionAPI] reads, the provider behind [fetch] (which may answer
    by what has happened so far) and the history of the run. *)
Record World := {
  DETECTION_METHOD : DetectionMethod;
  DETECTION_TERM : jsstring;
  PROMPT_CHOICE : value;
  openai_api_key : option jsstring;
  openai_base_url : option jsstring;
  provider : list Event -> Request -> FetchOutcome;
  trace : list Event
}.

(** The canvas capability [imageToBase64] and the built-in [JSON.parse]
    ([None] for a SyntaxError). *)
Class Platform := {
  Image : Type;
  imageToBase64 : Image -> result jsstring;
  JSON_parse : jsstring -> option value
}.

(** *** State and exceptions *)

Definition M (A : Type) : Type := World -> result A * World.

Definition ret {A} (a : A) : M A := fun w => (Ok a, w).

Definition throw {A} (e : exn) : M A := fun w => (Throw e, w).

Definition bind {A B} (m : M A) (k : A -> M B) : M B :=
  fun w =>
    match m w with
    | (Ok a, w') => k a w'
    | (Throw e, w') => (Throw e, w')
    end.

(** [try { m } catch (e) { h e }] *)
Definition try_catch {A} (m : M A) (h : exn -> M A) : M A :=
  fun w =>
    match m w with
    | (Ok a, w') => (Ok a, w')
    | (Throw e, w') => h e w'
    end.

Definition lift {A} (r : result A) : M A := fun w => (r, w).

Definition gets {A} (f : World -> A) : M A := fun w => (Ok (f w), w).

Definition emit (e : Event) : M unit :=
  fun w =>
    (Ok tt,
     {| DETECTION_METHOD := DETECTION_METHOD w;
        DETECTION_TERM := DETECTION_TERM w;
        PROMPT_CHOICE := PROMPT_CHOICE w;
        openai_api_key := openai_api_key w;
        openai_base_url := openai_base_url w;
        provider := provider w;
        trace := trace w ++ [e] |}).

End Program.

Declare Scope monad_scope.
Delimit Scope monad_scope with monad.
Notation "x <- m ;; k" := (bind m (fun x => k))
  (at level 61, m at next level, right associativity) : monad_scope.
Notation "m ;;; k" := (bind m (fun _ => k))
  (at level 61, right associativity) : monad_scope.
Open Scope monad_scope.

(** ** [core/config.ts] *)

Section Config.
Context {Num : JSNumber}.

Definition MAX_UI_COMPONENTS : Z := 6.

Definition setSplittingMode (method : DetectionMethod) : M unit :=
  fun w =>
    (Ok tt,
     {| DETECTION_METHOD := method;
        DETECTION_TERM := lit "component";
        PROMPT_CHOICE := PROMPT_CHOICE w;
        openai_api_key := openai_api_key w;
        openai_base_url := openai_base_url w;
        provider := provider w;
        trace := trace w |}).

Definition getSplittingMode : M DetectionMethod := gets DETECTION_METHOD.

Definition getDetectionTerm : M jsstring := gets DETECTION_TERM.

Definition set_PROMPT_CHOICE (choice : value) (w : World) : World :=
  {| DETECTION_METHOD := DETECTION_METHOD w;
     DETECTION_TERM := DETECTION_TERM w;
     PROMPT_CHOICE := choice;
     openai_api_key := openai_api_key w;
     openai_base_url := openai_base_url w;
     provider := provider w;
     trace := trace w |}.

Definition invalid_prompt_choice : exn :=
  Error (lit "Invalid prompt choice. Must be 'concise' or 'extensive'").

Definition setPromptChoice (choice : value) : M unit :=
  if negb (strict_eq_str choice (lit "concise"))
     && negb (strict_eq_str choice (lit "extensive"))
  then throw invalid_prompt_choice
  else fun w => (Ok tt, set_PROMPT_CHOICE choice w).

Definition getPromptChoice : M value := gets PROMPT_CHOICE.

End Config.

(** *** Prompt templates *)

Definition concise_template (detectionTerm regionSpecs layoutSection activityDescription : jsstring)
  : jsstring :=
  lit "This study presents a systematic analysis framework for precise UI replication, incorporating component specifications and visual hierarchy assessment. The framework examines:

    ["
  ++ capitalize detectionTerm
  ++ lit " Analysis]
    "
  ++ regionSpecs
  ++ lit "

    [Layout Analysis]
    "
  ++ layoutSection
  ++ lit "

    [Interactive Elements]
    "
  ++ activityDescription
  ++ lit "

    Technical Specifications for Implementation:

    1. Layout Architecture
    - Container dimensions and responsive breakpoints
    - Component positioning matrix including:
        • Primary sections (header, content, footer)
        • Grid system specifications
        • Spatial relationships and padding metrics

    2. Visual Parameters
    - Color schema (primary, secondary, accent)
    - Typography specifications
    - Elevation system (shadows, borders)

    3. Component Specifications
    - Interactive controls
    - Static elements
    - State representations

    4. Content Parameters
    - Text constraints and overflow behavior
    - Media dimensions and ratios
    - Component hierarchy

    This framework enables precise replication while maintaining structural integrity and interactive functionality across various viewport dimensions.
    ".

Definition extensive_template (detectionTerm regionSpecs layoutSection activityDescription : jsstring)
  : jsstring :=
  lit "You are an expert UI development agent tasked with providing exact technical specifications for recreating this interface. Analyze all details with high precision:

    [Components Specifications by Location]
    "
  ++ regionSpecs
  ++ lit "

    [Layout Structure]
    "
  ++ layoutSection
  ++ lit "

    [Interaction Patterns]
    "
  ++ activityDescription
  ++ lit "

    Note: If a component has already been explained in detail above, only its name and location will be listed below to provide geographical context.

    Provide a complete technical specification for exact replication in text format:

    1. Layout Structure
    - Primary container dimensions
    - Component positioning map:
        • Header, main content, sidebars, footer
        • Layout elements:
            - Number and size of columns (e.g., 3 columns at 33% each)
            - Number and height of rows
            - Grid/box count and arrangement
            - Circular elements diameter and placement
        • Spacing and gaps:
            - Between major sections
            - Between grid items
            - Inner padding
    - Responsive behavior:
        • Breakpoint dimensions
        • Layout changes at each breakpoint
        • Element reflow rules
    
    2. Visual Style
    - Colors:
        • Primary, secondary, accent colors
        • Background colors
        • Text colors
        • Border colors
    - Typography:
        • Font sizes
        • Text weights
        • Text alignment
    - Depth and Emphasis:
        • Visible shadows
        • Border styles
        • Opacity levels
    
    3. Visible Elements
    - Controls:
        • Button appearances (if new, otherwise location only)
        • Form element styling (if new, otherwise location only)
        • Interactive element looks (if new, otherwise location only)
    - Static Elements:
        • Images and icons (if new, otherwise location only)
        • Text content (if new, otherwise location only)
        • Decorative elements (if new, otherwise location only)
    - Visual States:
        • Active/selected states
        • Disabled appearances
        • Current page indicators
    
    4. Content Presentation
    - Text:
        • Visible length limits
        • Current overflow handling
        • Text wrapping behavior
    - Media:
        • Image dimensions
        • Aspect ratios
        • Current placeholder states
    
    5. Visual Hierarchy
    - Element stacking
    - Content grouping
    - Visual emphasis
    - Spatial relationships between previously described components
    ".

Section SuperPrompt.
Context {Num : JSNumber}.

(** The [regionSpecs] of [buildSuperPrompt]: one numbered line a region. *)
Definition regionSpecs (detectionTerm : jsstring)
    (regionDescriptions : list jsstring) : jsstring :=
  join [LF]
    (mapi (fun desc i =>
             capitalize detectionTerm ++ lit " " ++ string_of_index (i + 1)
             ++ lit ": " ++ desc)
          regionDescriptions).

(** [mainImageCaption || "No layout analysis available"] *)
Definition layoutSection (mainImageCaption : jsstring) : jsstring :=
  match mainImageCaption with
  | [] => lit "No layout analysis available"
  | _ :: _ => mainImageCaption
  end.

(** [buildSuperPrompt]; an omitted or [undefined] [promptSize] takes the
    default ['concise']. *)
Definition buildSuperPrompt (mainImageCaption : jsstring)
    (regionDescriptions : list jsstring) (activityDescription : jsstring)
    (promptSize : value) : M jsstring :=
  let promptSize :=
    match promptSize with
    | VUndefined => VStr (lit "concise")
    | v => v
    end in
  detectionTerm <- getDetectionTerm ;;
  if strict_eq_str promptSize (lit "concise")
  then ret (concise_template detectionTerm
              (regionSpecs detectionTerm regionDescriptions)
              (layoutSection mainImageCaption) activityDescription)
  else ret (extensive_template detectionTerm
              (regionSpecs detectionTerm regionDescriptions)
              (layoutSection mainImageCaption) activityDescription).

End SuperPrompt.

(** ** [core/main.ts] *)

(** [types.ts]: [UIDetection].  The fields hold whatever the parsed reply
    held; the casts of [getComponents] are not checked at run time. *)
Record UIDetection {Num : JSNumber} := {
  type : value;
  bbox : value;
  confidence : value;
  text : value
}.

(** [types.ts]: [AnalysisResponse]. *)
Record AnalysisResponse := {
  mainDesign : jsstring;
  componentAnalyses : list jsstring;
  finalAnalysis : jsstring
}.

(** [types.ts]: [Detector]. *)
Record Detector {Num : JSNumber} := {
  getComponents : M (list UIDetection);
  visualizeDetections : list UIDetection -> jsstring -> M unit
}.

Definition rbind {A B} (r : result A) (k : A -> result B) : result B :=
  match r with
  | Ok a => k a
  | Throw e => Throw e
  end.

Notation "x <~ r ;; k" := (rbind r (fun x => k))
  (at level 61, r at next level, right associativity) : monad_scope.

(** [a.map((item, index) => f item index)] with a callback that may throw:
    the first exception ends the traversal. *)
Fixpoint map_result {A B} (f : A -> nat -> result B) (i0 : nat) (a : list A)
  : result (list B) :=
  match a with
  | [] => Ok []
  | x :: r =>
    y <~ f x i0 ;;
    ys <~ map_result f (S i0) r ;;
    Ok (y :: ys)
  end.

Section Main.
Context {Num : JSNumber} {P : Platform}.

Definition gpt_4o : jsstring := lit "gpt-4o".

(** The call to [fetch]: the provider answers, the request is recorded. *)
Definition fetch (r : Request) : M FetchOutcome :=
  response <- gets (fun w => provider w (trace w) r) ;;
  emit (Fetch r) ;;;
  ret response.

Definition callVisionAPI (imageElement : Image) (systemPrompt : SystemPrompt)
    (userPrompt : UserPrompt) (temperature : Q) (jsonResponse : bool)
    (model : jsstring) : M jsstring :=
  try_catch
    (imageBase64 <- lift (imageToBase64 imageElement) ;;
     apiKey <- gets openai_api_key ;;
     baseUrl <- gets (fun w => match openai_base_url w with
                               | Some (c :: r) => c :: r
                               | _ => lit "https://api.openai.com/v1"
                               end) ;;
     match apiKey with
     | None | Some [] =>
       throw (Error (lit "OpenAI API key not set. Please configure it in settings."))
     | Some (c :: r) =>
       response <- fetch {| url := baseUrl ++ lit "/chat/completions";
                            bearer := c :: r;
                            model := model;
                            system := systemPrompt;
                            user := userPrompt;
                            image_base64 := imageBase64;
                            max_tokens := 1024;
                            temperature := temperature;
                            json_object := jsonResponse |} ;;
       match response with
       | Rejected e => throw e
       | NotOk message => throw (Error (lit "API response error: " ++ message))
       | Reply content => ret (trim content)
       end
     end)
    (fun error => throw error).

Definition design_error_sentinel : jsstring :=
  lit "Error analyzing main design structure".

Definition analyzeMainDesignChoices (imageElement : Image) (temp : option Q)
  : M jsstring :=
  let temp := match temp with Some t => t | None => (1 # 10)%Q end in
  emit Enter_analyzeMainDesignChoices ;;;
  try_catch
    (callVisionAPI imageElement MAIN_DESIGN_ANALYSIS_PROMPT
       (UserText (lit "Analyze the complete design system and structure of this interface."))
       temp false gpt_4o)
    (fun _ => ret design_error_sentinel).

Definition describeActivity (imageElement : Image) : M jsstring :=
  emit Enter_describeActivity ;;;
  callVisionAPI imageElement
    (SystemText (lit "Describe this webpage activity in a few sentences."))
    (UserText (lit "What activity is shown in this image?"))
    (1 # 10)%Q false gpt_4o.

(** The marker line of [analyzeDetection], for the label as a string. *)
Definition location_marker (location : jsstring) : jsstring :=
  lit "[Location: " ++ location ++ lit "]" ++ [LF].

(** The [prompt] of [analyzeDetection], for the label as a string. *)
Definition analysis_prompt (detectionTerm : jsstring) (index : nat)
    (location : jsstring) : jsstring :=
  lit "Analyze this UI " ++ detectionTerm ++ lit ":
  - Location: " ++ location ++ lit "
  - " ++ capitalize detectionTerm ++ lit " number: " ++ string_of_index index
  ++ lit "
  
  Provide structured analysis following the JSON schema in system prompt.
  Focus on implementation-relevant details.".

(** [location] is declared a string, but what [processImage] passes is the
    [text] of a detection, which is whatever the reply held; the three
    template literals convert it, the first of them in the [logger.info]
    line, before any request. *)
Definition analyzeDetection (detectionImage : Image) (index : nat)
    (location : value) : M jsstring :=
  detectionTerm <- getDetectionTerm ;;
  emit (Enter_analyzeDetection index location) ;;;
  label <- lift (ToString location) ;;
  let prompt := analysis_prompt detectionTerm index label in
  analysis <- callVisionAPI detectionImage VISION_ANALYSIS_PROMPT
                (UserText prompt) (1 # 10)%Q true gpt_4o ;;
  ret (location_marker label ++ analysis).

(** The cleaning of [callSuperPrompt]: drop the first and the last line,
    drop the lines that are blank after trimming, join, trim. *)
Definition cleanedPrompt (superPrompt : jsstring) : jsstring :=
  trim
    (join [LF]
       (filter (fun line => match trim line with [] => false | _ => true end)
          (js_slice 1 (-1) (split LF superPrompt)))).

Definition build_prefix : jsstring := lit "Build this app: ".

Definition finalPrompt (superPrompt : jsstring) : jsstring :=
  build_prefix ++ cleanedPrompt superPrompt.

Definition mock_prefix : jsstring :=
  lit "This is a mock super prompt response based on: ".

Definition callSuperPrompt (mainImageCaption : jsstring)
    (componentCaptions : list jsstring) (activityDescription : jsstring)
  : M jsstring :=
  emit (Enter_callSuperPrompt mainImageCaption componentCaptions
                              activityDescription) ;;;
  try_catch
    (superPrompt <- buildSuperPrompt mainImageCaption componentCaptions
                      activityDescription VUndefined ;;
     ret (mock_prefix ++ substring0 50 (finalPrompt superPrompt) ++ lit "..."))
    (fun e => throw e).

(** The callback of [items.slice(0, maxComponents).map(...)]. *)
Definition toDetection (detectionTerm : jsstring) (item : value) (index : nat)
  : result UIDetection :=
  item_bbox <~ get_prop item (lit "bbox") ;;
  bbox <~ (if isArray item_bbox then Ok item_bbox
           else
             item_box <~ get_prop item (lit "box") ;;
             if truthy item_box then
               x <~ get_prop item_box (lit "x") ;;
               y <~ get_prop item_box (lit "y") ;;
               width <~ get_prop item_box (lit "width") ;;
               height <~ get_prop item_box (lit "height") ;;
               Ok (VArr [or_else x (VNum num_zero); or_else y (VNum num_zero);
                         or_else width (VNum num_zero);
                         or_else height (VNum num_zero)])
             else Ok (VArr [VNum num_zero; VNum num_zero;
                            VNum num_zero; VNum num_zero])) ;;
  item_type <~ get_prop item (lit "type") ;;
  item_confidence <~ get_prop item (lit "confidence") ;;
  item_text <~ get_prop item (lit "text") ;;
  item_location <~ get_prop item (lit "location") ;;
  Ok {| type := or_else item_type (VStr (lit "component"));
        bbox := bbox;
        confidence := or_else item_confidence (VNum num_one);
        text := or_else item_text
                  (or_else item_location
                     (VStr (detectionTerm ++ lit " " ++ string_of_index index))) |}.

Definition createDetector (method : DetectionMethod) (imageElement : Image)
    (maxComponents : option Z) : Detector :=
  let maxComponents :=
    match maxComponents with Some n => n | None => MAX_UI_COMPONENTS end in
  {| getComponents :=
       detectionTerm <- getDetectionTerm ;;
       emit Enter_getComponents ;;;
       try_catch
         (response <- callVisionAPI imageElement
                        (SystemText (lit "As a UI analysis expert, identify "
                                     ++ detectionTerm ++ lit "s in the interface."))
                        (DetectionPrompt maxComponents) (2 # 10)%Q true gpt_4o ;;
          parsedResponse <- match JSON_parse response with
                            | Some v => ret v
                            | None => throw SyntaxError
                            end ;;
          components <- lift (get_prop parsedResponse (lit "components")) ;;
          let items := or_else components (VArr []) in
          has_length <- lift (length_truthy items) ;;
          if negb has_length then ret []
          else
            match items with
            | VArr a =>
              lift (map_result (toDetection detectionTerm) 0
                               (js_slice 0 maxComponents a))
            | _ => throw TypeError
            end)
         (fun _ => ret []);
     visualizeDetections := fun _ _ => ret tt |}.

(** The [for] loop of [processImage]. *)
Fixpoint analyze_each (image : Image) (detections : list UIDetection)
    (i : nat) (detectionAnalyses : list jsstring) : M (list jsstring) :=
  match detections with
  | [] => ret detectionAnalyses
  | detection :: rest =>
    analysisResult <- analyzeDetection image i (text detection) ;;
    analyze_each image rest (S i) (detectionAnalyses ++ [analysisResult])
  end.

Definition error_result : AnalysisResponse :=
  {| mainDesign := lit "Error processing image";
     componentAnalyses := [];
     finalAnalysis := lit "Error during analysis" |}.

(** The [try] block of [processImage]. *)
Definition processImage_try (image : Image) (minArea : value)
    (maxDetections : option Z) : M AnalysisResponse :=
  let maxDetections :=
    match maxDetections with Some n => n | None => MAX_UI_COMPONENTS end in
  method <- getSplittingMode ;;
  let detector := createDetector method image (Some maxDetections) in
  detections <- getComponents detector ;;
  match detections with
  | [] =>
    detectionTerm <- getDetectionTerm ;;
    ret {| mainDesign := lit "No " ++ detectionTerm ++ lit "s detected.";
           componentAnalyses := [];
           finalAnalysis := lit "Error during analysis" |}
  | _ :: _ =>
    mainDesignChoices <- analyzeMainDesignChoices image None ;;
    activityDescription <- describeActivity image ;;
    detectionAnalyses <- analyze_each image detections 0 [] ;;
    finalAnalysis <- callSuperPrompt mainDesignChoices detectionAnalyses
                       activityDescription ;;
    ret {| mainDesign := mainDesignChoices;
           componentAnalyses := detectionAnalyses;
           finalAnalysis := finalAnalysis |}
  end.

Definition processImage (image : Image) (minArea : value)
    (maxDetections : option Z) : M AnalysisResponse :=
  try_catch (processImage_try image minArea maxDetections)
            (fun _ => ret error_result).

End Main.

(** ** The callers: [initializeClients] and [reactProcessImage] *)

(** What [initializeClients] returns. *)
Record Clients := {
  apiKey : jsstring;
  hasValidKey : bool
}.

(** What [reactProcessImage] returns. *)
Module React.
Record Result := {
  finalAnalysis : jsstring;
  output : jsstring;
  visualizationImage : option jsstring
}.
End React.

Section Callers.
Context {Num : JSNumber} {P : Platform}.

(** [config.ts]: [initializeClients];
    [localStorage.getItem('openai_api_key') || ''] and [Boolean(apiKey)]. *)
Definition initializeClients : M Clients :=
  apiKey <- gets (fun w => match openai_api_key w with
                           | Some k => k
                           | None => []
                           end) ;;
  ret {| apiKey := apiKey;
         hasValidKey := match apiKey with [] => false | _ :: _ => true end |}.

(** [main.ts]: [reactProcessImage]. *)
Definition reactProcessImage (image : Image) (splittingMode : DetectionMethod)
    (maxComponents : option Z) : M React.Result :=
  let maxComponents :=
    match maxComponents with Some n => n | None => MAX_UI_COMPONENTS end in
  setSplittingMode splittingMode ;;;
  r <- processImage image VUndefined (Some maxComponents) ;;
  detectionTerm <- getDetectionTerm ;;
  let output :=
    (lit "**Main Design Choices:**
" ++ mainDesign r ++ lit "

")
    ++ (lit "**" ++ capitalize detectionTerm ++ lit " Analysis:**
")
    ++ concat
         (mapi (fun analysis i =>
                  lit "**" ++ capitalize detectionTerm ++ lit " "
                  ++ string_of_index i ++ lit ":** " ++ analysis ++ lit "
")
               (componentAnalyses r))
    ++ (lit "
**Final Analysis:**
" ++ finalAnalysis r) in
  ret {| React.finalAnalysis := finalAnalysis r;
         React.output := output;
         React.visualizationImage := Some (lit "visualization_image_url") |}.

End Callers.

(** ** A sample platform

    Numbers are the integers, images carry no data, and [JSON.parse] is
    written out for the fragment of JSON whose numbers are integers and whose
    strings have no escapes (text outside the fragment is refused). *)

Module Sample.

Definition string_of_Z (z : Z) : jsstring :=
  match z with
  | Z0 => lit "0"
  | Zpos p => digits (Pos.to_uint p)
  | Zneg p => lit "-" ++ digits (Pos.to_uint p)
  end.

#[export] Instance Z_number : JSNumber := {|
  number := Z;
  num_zero := 0%Z;
  num_one := 1%Z;
  num_truthy := fun z => negb (z =? 0)%Z;
  num_toString := string_of_Z
|}.

Inductive token :=
| TLBrace | TRBrace | TLBrack | TRBrack | TColon | TComma
| TString (s : jsstring)
| TNumber (z : Z)
| TTrue | TFalse | TNull.

Definition is_digit (c : code_unit) : bool := ((48 <=? c) && (c <=? 57))%N.

(** The characters of a string up to the closing quote. *)
Fixpoint scan_string (s : jsstring) : option (jsstring * jsstring) :=
  match s with
  | [] => None
  | c :: r =>
    if (c =? 34)%N then Some ([], r)
    else if (c =? 92)%N || (c <? 32)%N then None
    else match scan_string r with
         | Some (body, rest) => Some (c :: body, rest)
         | None => None
         end
  end.

Fixpoint scan_digits (s : jsstring) (acc : Z) : Z * jsstring :=
  match s with
  | [] => (acc, [])
  | c :: r =>
    if is_digit c then scan_digits r (10 * acc + Z.of_N (c - 48))%Z
    else (acc, s)
  end.

(** An integer literal: no leading zero, no fraction, no exponent. *)
Definition scan_number (negative : bool) (s : jsstring) : option (Z * jsstring) :=
  match s with
  | [] => None
  | c :: r =>
    if is_digit c then
      let '(n, rest) := if (c =? 48)%N then (0%Z, r) else scan_digits s 0 in
      match rest with
      | d :: _ =>
        if is_digit d || (d =? 46)%N || (d =? 101)%N || (d =? 69)%N then None
        else Some (if negative then (- n)%Z else n, rest)
      | [] => Some (if negative then (- n)%Z else n, rest)
      end
    else None
  end.

Fixpoint tokenize (fuel : nat) (s : jsstring) : option (list token) :=
  match fuel with
  | O => None
  | S fuel =>
    match s with
    | [] => Some []
    | c :: r =>
      let one t := match tokenize fuel r with
                   | Some ts => Some (t :: ts)
                   | None => None
                   end in
      let word (w : jsstring) t :=
        if starts_withb w s then
          match tokenize fuel (skipn (length w) s) with
          | Some ts => Some (t :: ts)
          | None => None
          end
        else None in
      if (c =? 32)%N || (c =? 9)%N || (c =? 10)%N || (c =? 13)%N
      then tokenize fuel r
      else if (c =? 123)%N then one TLBrace
      else if (c =? 125)%N then one TRBrace
      else if (c =? 91)%N then one TLBrack
      else if (c =? 93)%N then one TRBrack
      else if (c =? 58)%N then one TColon
      else if (c =? 44)%N then one TComma
      else if (c =? 34)%N then
        match scan_string r with
        | Some (body, rest) =>
          match tokenize fuel rest with
          | Some ts => Some (TString body :: ts)
          | None => None
          end
        | None => None
        end
      else if (c =? 116)%N then word (lit "true") TTrue
      else if (c =? 102)%N then word (lit "false") TFalse
      else if (c =? 110)%N then word (lit "null") TNull
      else
        match (if (c =? 45)%N then scan_number true r else scan_number false s) with
        | Some (z, rest) =>
          match tokenize fuel rest with
          | Some ts => Some (TNumber z :: ts)
          | None => None
          end
        | None => None
        end
    end
  end.

(** Members are kept latest first, so that [lookup] finds the last of two
    equal keys, as the parsed object does. *)
Fixpoint parse_value (fuel : nat) (ts : list token)
  : option (value * list token) :=
  match fuel with
  | O => None
  | S fuel =>
    match ts with
    | TNull :: r => Some (VNull, r)
    | TTrue :: r => Some (VBool true, r)
    | TFalse :: r => Some (VBool false, r)
    | TNumber z :: r => Some (VNum z, r)
    | TString s :: r => Some (VStr s, r)
    | TLBrack :: TRBrack :: r => Some (VArr [], r)
    | TLBrack :: r => parse_elements fuel r []
    | TLBrace :: TRBrace :: r => Some (VObj [], r)
    | TLBrace :: r => parse_members fuel r []
    | _ => None
    end
  end
with parse_elements (fuel : nat) (ts : list token) (acc : list value)
  : option (value * list token) :=
  match fuel with
  | O => None
  | S fuel =>
    match parse_value fuel ts with
    | Some (v, TComma :: r) => parse_elements fuel r (acc ++ [v])
    | Some (v, TRBrack :: r) => Some (VArr (acc ++ [v]), r)
    | _ => None
    end
  end
with parse_members (fuel : nat) (ts : list token)
                   (acc : list (jsstring * value))
  : option (value * list token) :=
  match fuel with
  | O => None
  | S fuel =>
    match ts with
    | TString k :: TColon :: r =>
      match parse_value fuel r with
      | Some (v, TComma :: r') => parse_members fuel r' ((k, v) :: acc)
      | Some (v, TRBrace :: r') => Some (VObj ((k, v) :: acc), r')
      | _ => None
      end
    | _ => None
    end
  end.

Definition parse (s : jsstring) : option value :=
  match tokenize (S (length s)) s with
  | Some ts =>
    match parse_value (S (length ts)) ts with
    | Some (v, []) => Some v
    | _ => None
    end
  | None => None
  end.

#[export] Instance platform : Platform := {|
  Image := unit;
  imageToBase64 := fun _ => Ok (lit "iVBORw0KGgo=");
  JSON_parse := parse
|}.

(** A double-quoted JSON string, and a member with a string value. *)
Definition q (s : string) : jsstring := [34%N] ++ lit s ++ [34%N].

Definition world (key : option jsstring)
    (p : list Event -> Request -> FetchOutcome) : World :=
  {| DETECTION_METHOD := llm;
     DETECTION_TERM := lit "component";
     PROMPT_CHOICE := VStr (lit "concise");
     openai_api_key := key;
     openai_base_url := None;
     provider := p;
     trace := [] |}.

(** A provider that is down. *)
Definition provider_down : list Event -> Request -> FetchOutcome :=
  fun _ _ => Rejected (Error (lit "Failed to fetch")).

(** A provider that answers the detector with [detections] and every other
    request with [analysis]. *)
Definition provider_up (detections analysis : jsstring)
  : list Event -> Request -> FetchOutcome :=
  fun _ r =>
    match user r with
    | DetectionPrompt _ => Reply detections
    | UserText _ => Reply analysis
    end.

Definition key : option jsstring := Some (lit "sk-test").

(** Zero components. *)
Definition reply_none : jsstring :=
  lit "{" ++ q "components" ++ lit ": []}".

(** Three components: an array box of two numbers, an object under [box],
    an object under [bbox]. *)
Definition reply_three : jsstring :=
  lit "{" ++ q "components" ++ lit ": [{" ++ q "type" ++ lit ": " ++ q "button"
  ++ lit ", " ++ q "bbox" ++ lit ": [1, 2], " ++ q "text" ++ lit ": " ++ q "Save"
  ++ lit "}, {" ++ q "box" ++ lit ": {" ++ q "x" ++ lit ": 10, " ++ q "y"
  ++ lit ": 20, " ++ q "width" ++ lit ": 30}, " ++ q "location" ++ lit ": "
  ++ q "top left" ++ lit "}, {" ++ q "bbox" ++ lit ": {" ++ q "x" ++ lit ": 1, "
  ++ q "y" ++ lit ": 2, " ++ q "width" ++ lit ": 3, " ++ q "height"
  ++ lit ": 4}}]}".

(** Three worlds: the provider finds no component, finds three, is down. *)
Definition world_none : World := world key (provider_up reply_none (lit " ok ")).

Definition world_three : World :=
  world key (provider_up reply_three (lit " ok ")).

Definition world_down : World := world key provider_down.

(** A provider that answers the detector only. *)
Definition provider_detect_only (detections : jsstring)
  : list Event -> Request -> FetchOutcome :=
  fun _ r =>
    match user r with
    | DetectionPrompt _ => Reply detections
    | UserText _ => Rejected (Error (lit "Failed to fetch"))
    end.

Definition world_detect_only : World :=
  world key (provider_detect_only reply_three).

(** A provider that fails for the request of the Design Analyzer only. *)
Definition provider_design_fails (detections analysis : jsstring)
  : list Event -> Request -> FetchOutcome :=
  fun _ r =>
    match system r with
    | MAIN_DESIGN_ANALYSIS_PROMPT => Rejected (Error (lit "Failed to fetch"))
    | _ =>
      match user r with
      | DetectionPrompt _ => Reply detections
      | UserText _ => Reply analysis
      end
    end.

Definition world_design_fails : World :=
  world key (provider_design_fails reply_three (lit " ok ")).

(** What the detector makes of [reply_three]. *)
Definition three_detections : list UIDetection :=
  [ {| type := VStr (lit "button");
       bbox := VArr [VNum 1%Z; VNum 2%Z];
       confidence := VNum 1%Z;
       text := VStr (lit "Save") |};
    {| type := VStr (lit "component");
       bbox := VArr [VNum 10%Z; VNum 20%Z; VNum 30%Z; VNum 0%Z];
       confidence := VNum 1%Z;
       text := VStr (lit "top left") |};
    {| type := VStr (lit "component");
       bbox := VArr [VNum 0%Z; VNum 0%Z; VNum 0%Z; VNum 0%Z];
       confidence := VNum 1%Z;
       text := VStr (lit "component 2") |} ].

(** The result of the run in [world_three]. *)
Definition three_result : AnalysisResponse :=
  {| mainDesign := lit "ok";
     componentAnalyses :=
       [ lit "[Location: Save]
ok";
         lit "[Location: top left]
ok";
         lit "[Location: component 2]
ok" ];
     finalAnalysis :=
       lit "This is a mock super prompt response based on: Build this app: [Component Analysis]
    Component..." |}.


End Sample.

(** ** Vocabulary of the statements *)

Section Vocabulary.
Context {Num : JSNumber} {P : Platform}.

(** The invocations of the Component Analyzer recorded in a history, as
    (index, location) pairs, and those of the Prompt Synthesizer. *)
Fixpoint analyzer_calls (t : list Event) : list (nat * value) :=
  match t with
  | [] => []
  | Enter_analyzeDetection i l :: r => (i, l) :: analyzer_calls r
  | _ :: r => analyzer_calls r
  end.

Fixpoint synthesizer_calls (t : list Event)
  : list (jsstring * list jsstring * jsstring) :=
  match t with
  | [] => []
  | Enter_callSuperPrompt m c a :: r => (m, c, a) :: synthesizer_calls r
  | _ :: r => synthesizer_calls r
  end.

(** Events that are neither an analyzer nor a synthesizer invocation. *)
Definition quiet (e : Event) : Prop :=
  match e with
  | Enter_analyzeDetection _ _ | Enter_callSuperPrompt _ _ _ => False
  | _ => True
  end.

Definition with_trace (w : World) (t : list Event) : World :=
  {| DETECTION_METHOD := DETECTION_METHOD w;
     DETECTION_TERM := DETECTION_TERM w;
     PROMPT_CHOICE := PROMPT_CHOICE w;
     openai_api_key := openai_api_key w;
     openai_base_url := openai_base_url w;
     provider := provider w;
     trace := t |}.

(** [m] changes nothing but the history, to which it adds events that all
    satisfy [ok]. *)
Definition only_adds {A} (ok : Event -> Prop) (m : M A) : Prop :=
  forall w, exists evs,
    snd (m w) = with_trace w (trace w ++ evs) /\ Forall ok evs.

(** [m] behaves the same whatever prompt choice is stored. *)
Definition ignores_choice {A} (m : M A) : Prop :=
  forall choice w,
    m (set_PROMPT_CHOICE choice w)
    = (fst (m w), set_PROMPT_CHOICE choice (snd (m w))).

(** The Gateway call each stage makes, in the world in which it makes it. *)
Definition detector_reply (image : Image) (maxComponents : Z) (w : World)
  : result jsstring * World :=
  callVisionAPI image
    (SystemText (lit "As a UI analysis expert, identify " ++ DETECTION_TERM w
                 ++ lit "s in the interface."))
    (DetectionPrompt maxComponents) (2 # 10)%Q true gpt_4o
    (snd (emit Enter_getComponents w)).

Definition design_reply (image : Image) (temp : Q) (w : World)
  : result jsstring * World :=
  callVisionAPI image MAIN_DESIGN_ANALYSIS_PROMPT
    (UserText (lit "Analyze the complete design system and structure of this interface."))
    temp false gpt_4o
    (snd (emit Enter_analyzeMainDesignChoices w)).

Definition activity_reply (image : Image) (w : World)
  : result jsstring * World :=
  callVisionAPI image
    (SystemText (lit "Describe this webpage activity in a few sentences."))
    (UserText (lit "What activity is shown in this image?"))
    (1 # 10)%Q false gpt_4o
    (snd (emit Enter_describeActivity w)).

(** What [analyzeDetection] has before it prepends the marker: the outcome
    of its Gateway call, or the error of converting the label, which
    prevents the call. *)
Definition analyzer_reply (image : Image) (index : nat) (location : value)
    (w : World) : result jsstring * World :=
  (label <- lift (ToString location) ;;
   callVisionAPI image VISION_ANALYSIS_PROMPT
     (UserText (analysis_prompt (DETECTION_TERM w) index label))
     (1 # 10)%Q true gpt_4o)
    (snd (emit (Enter_analyzeDetection index location) w)).

(** What [getComponents] makes of a reply: the body of its [try] block after
    the Gateway call. *)
Definition detections_of_reply (detectionTerm : jsstring) (maxComponents : Z)
    (response : jsstring) : result (list UIDetection) :=
  match JSON_parse response with
  | None => Throw SyntaxError
  | Some parsedResponse =>
    components <~ get_prop parsedResponse (lit "components") ;;
    let items := or_else components (VArr []) in
    has_length <~ length_truthy items ;;
    if negb has_length then Ok []
    else
      match items with
      | VArr a =>
        map_result (toDetection detectionTerm) 0 (js_slice 0 maxComponents a)
      | _ => Throw TypeError
      end
  end.

Definition is_object (v : value) : Prop :=
  match v with VObj _ => True | _ => False end.


(** [v.k] where it cannot throw. *)
Definition member (v : value) (k : string) : value :=
  match get_prop v (lit k) with
  | Ok x => x
  | Throw _ => VUndefined
  end.

(** The [bbox] that the callback of [getComponents] computes for an item. *)
Definition bbox_of (item : value) : value :=
  if isArray (member item "bbox") then member item "bbox"
  else if truthy (member item "box") then
    VArr [or_else (member (member item "box") "x") (VNum num_zero);
          or_else (member (member item "box") "y") (VNum num_zero);
          or_else (member (member item "box") "width") (VNum num_zero);
          or_else (member (member item "box") "height") (VNum num_zero)]
  else VArr [VNum num_zero; VNum num_zero; VNum num_zero; VNum num_zero].


(** A parsed reply whose [components] key is absent, or an empty array. *)
Definition components_absent_or_empty (parsed : value) : Prop :=
  match parsed with
  | VObj fields =>
    match lookup (lit "components") fields with
    | None | Some (VArr []) => True
    | Some _ => False
    end
  | _ => True
  end.

(** A field of a result carries text: a non-empty string, or a list with a
    non-empty string in it. *)
Definition carries_text (s : jsstring) : Prop := s <> [].

Definition some_carries_text (l : list jsstring) : Prop :=
  exists s, In s l /\ carries_text s.

(** [box.k || 0] *)
Definition coordinate (box : list (jsstring * value)) (k : string) : value :=
  match lookup (lit k) box with
  | Some v => or_else v (VNum num_zero)
  | None => VNum num_zero
  end.

Definition zero_box : value :=
  VArr [VNum num_zero; VNum num_zero; VNum num_zero; VNum num_zero].

End Vocabulary.

(** ** Vocabulary for the callers and the histories *)

Section Vocabulary_of_runs.
Context {Num : JSNumber} {P : Platform}.

(** The module state of [config.ts] when it is loaded. *)
Definition module_loaded (key base : option jsstring)
    (p : list Event -> Request -> FetchOutcome) : World :=
  {| DETECTION_METHOD := llm;
     DETECTION_TERM := lit "component";
     PROMPT_CHOICE := VStr (lit "concise");
     openai_api_key := key;
     openai_base_url := base;
     provider := p;
     trace := [] |}.

(** A call of one of the exported operations. *)
Inductive Call :=
| Call_setSplittingMode (method : DetectionMethod)
| Call_setPromptChoice (choice : value)
| Call_initializeClients
| Call_processImage (image : Image) (minArea : value)
                    (maxDetections : option Z)
| Call_reactProcessImage (image : Image) (splittingMode : DetectionMethod)
                         (maxComponents : option Z).

(** The world after a call, whether it returned or threw. *)
Definition after (c : Call) (w : World) : World :=
  match c with
  | Call_setSplittingMode m => snd (setSplittingMode m w)
  | Call_setPromptChoice v => snd (setPromptChoice v w)
  | Call_initializeClients => snd (initializeClients w)
  | Call_processImage i a n => snd (processImage i a n w)
  | Call_reactProcessImage i m n => snd (reactProcessImage i m n w)
  end.

Definition after_all (cs : list Call) (w : World) : World :=
  fold_left (fun w c => after c w) cs w.

(** The requests in a history, and the stage entries in it. *)
Fixpoint requests (t : list Event) : list Request :=
  match t with
  | [] => []
  | Fetch r :: t' => r :: requests t'
  | _ :: t' => requests t'
  end.

Fixpoint stages (t : list Event) : list Event :=
  match t with
  | [] => []
  | Fetch _ :: t' => stages t'
  | e :: t' => e :: stages t'
  end.

(** The history that the loop of [processImage] leaves when every analysis
    gets as far as its request: for the detections in order, counted from
    [i], the entry of the Component Analyzer with the detection's [text],
    directly followed by the one request of that analysis. *)
Fixpoint analysis_events (i : nat) (detections : list UIDetection)
    (sent : list Request) : list Event :=
  match detections, sent with
  | d :: ds, q :: qs =>
    Enter_analyzeDetection i (text d) :: Fetch q :: analysis_events (S i) ds qs
  | _, _ => []
  end.

(** A string without a line break, and a string that neither starts nor
    ends with white space. *)
Definition one_line (s : jsstring) : Prop := ~ In LF s.

Definition trimmed (s : jsstring) : Prop :=
  match s with
  | [] => True
  | c :: _ => is_whitespace c = false /\ is_whitespace (last s c) = false
  end.

(** The text that [callSuperPrompt] returns for the term ['component'] and
    at least one component caption. *)
Definition mock_response : jsstring :=
  lit "This is a mock super prompt response based on: Build this app: [Component Analysis]
    Component...".

Definition key_error : exn :=
  Error (lit "OpenAI API key not set. Please configure it in settings.").

Definition no_detections_result : AnalysisResponse :=
  {| mainDesign := lit "No components detected.";
     componentAnalyses := [];
     finalAnalysis := lit "Error during analysis" |}.

(** The configuration that [config.ts] keeps: the detection term is
    ['component'] and the prompt choice is one of the two levels. *)
Definition config_ok (w : World) : Prop :=
  DETECTION_TERM w = lit "component"
  /\ (PROMPT_CHOICE w = VStr (lit "concise")
      \/ PROMPT_CHOICE w = VStr (lit "extensive")).

(** [callVisionAPI] gets as far as [fetch]: the image can be encoded and a
    non-empty key is stored. *)
Definition ready (image : Image) (w : World) : Prop :=
  (exists b, imageToBase64 image = Ok b)
  /\ exists c k, openai_api_key w = Some (c :: k).


(** The opening of the concise template, up to the region section. *)
Definition concise_opening (detectionTerm : jsstring) : jsstring :=
  lit "This study presents a systematic analysis framework for precise UI replication, incorporating component specifications and visual hierarchy assessment. The framework examines:

    ["
  ++ capitalize detectionTerm
  ++ lit " Analysis]
    ".


(** No constraint on the events added. *)
Definition any_event (e : Event) : Prop := True.

End Vocabulary_of_runs.

(** ** More sample worlds *)

Module SampleRuns.
Import Sample.

(** The items of [reply_three] as [parse] returns them. *)
Definition three_items : list value :=
  [ VObj [(lit "text", VStr (lit "Save"));
          (lit "bbox", VArr [VNum 1%Z; VNum 2%Z]);
          (lit "type", VStr (lit "button"))];
    VObj [(lit "location", VStr (lit "top left"));
          (lit "box", VObj [(lit "width", VNum 30%Z); (lit "y", VNum 20%Z);
                            (lit "x", VNum 10%Z)])];
    VObj [(lit "bbox", VObj [(lit "height", VNum 4%Z); (lit "width", VNum 3%Z);
                             (lit "y", VNum 2%Z); (lit "x", VNum 1%Z)])] ].

Definition three_fields : list (jsstring * value) :=
  [(lit "components", VArr three_items)].

(** A reply whose second item is [null]. *)
Definition reply_with_null : jsstring :=
  lit "{" ++ q "components" ++ lit ": [{" ++ q "type" ++ lit ": " ++ q "button"
  ++ lit "}, null]}".

Definition null_items : list value :=
  [VObj [(lit "type", VStr (lit "button"))]; VNull].

Definition null_fields : list (jsstring * value) :=
  [(lit "components", VArr null_items)].

Definition world_null : World :=
  world key (provider_up reply_with_null (lit " ok ")).

(** No key is stored. *)
Definition world_no_key : World :=
  world None (provider_up reply_three (lit " ok ")).

(** A provider that answers the detector, and the other requests as long as
    fewer than [n] requests have been sent. *)
Definition provider_fails_after (n : nat) (detections analysis : jsstring)
  : list Event -> Request -> FetchOutcome :=
  fun t r =>
    match user r with
    | DetectionPrompt _ => Reply detections
    | UserText _ =>
      if (length (requests t) <? n)%nat then Reply analysis
      else Rejected (Error (lit "Failed to fetch"))
    end.

(** The analysis of the second detection fails. *)
Definition world_second_analysis_fails : World :=
  world key (provider_fails_after 4 reply_three (lit " ok ")).

(** The worlds that the run in [world_detect_only] reaches: after the
    detector, and after the Activity Describer. *)
Definition detect_only_detected : World :=
  snd (getComponents (@createDetector Z_number platform llm tt (Some 6%Z))
                     world_detect_only).

Definition detect_only_described : World :=
  snd (@describeActivity Z_number platform tt
         (snd (@analyzeMainDesignChoices Z_number platform tt None
                 detect_only_detected))).

(** The worlds that the run in [world_second_analysis_fails] reaches: after
    the detector, after the Activity Describer, and after the loop. *)
Definition fails_detected : World :=
  snd (getComponents (@createDetector Z_number platform llm tt (Some 6%Z))
                     world_second_analysis_fails).

Definition fails_described : World :=
  snd (@describeActivity Z_number platform tt
         (snd (@analyzeMainDesignChoices Z_number platform tt None
                 fails_detected))).

Definition fails_analyzed : World :=
  snd (@analyze_each Z_number platform tt three_detections 0 []
         fails_described).

(** One component, whose [text] is an object with a key [toString]. *)
Definition reply_unconvertible : jsstring :=
  lit "{" ++ q "components" ++ lit ": [{" ++ q "text" ++ lit ": {"
  ++ q "toString" ++ lit ": 1}}]}".

Definition unconvertible_label : value :=
  VObj [(lit "toString", VNum 1%Z)].

Definition unconvertible_detection : UIDetection :=
  {| type := VStr (lit "component");
     bbox := VArr [VNum 0%Z; VNum 0%Z; VNum 0%Z; VNum 0%Z];
     confidence := VNum 1%Z;
     text := unconvertible_label |}.

Definition world_unconvertible : World :=
  world key (provider_up reply_unconvertible (lit " ok ")).

(** The worlds that the run in [world_unconvertible] reaches: after the
    detector, and after the Activity Describer. *)
Definition unconvertible_detected : World :=
  snd (getComponents (@createDetector Z_number platform llm tt (Some 6%Z))
                     world_unconvertible).

Definition unconvertible_described : World :=
  snd (@describeActivity Z_number platform tt
         (snd (@analyzeMainDesignChoices Z_number platform tt None
                 unconvertible_detected))).

End SampleRuns.

(** * Properties *)

Section Properties.
Context {Num : JSNumber} {P : Platform}.

(** ** Histories *)

Lemma with_trace_nil (w : World) : with_trace w (trace w ++ []) = w.
Proof. destruct w; unfold with_trace; simpl; now rewrite app_nil_r. Qed.

Lemma with_trace_app (w : World) (a b : list Event) :
  with_trace (with_trace w (trace w ++ a))
             (trace (with_trace w (trace w ++ a)) ++ b)
  = with_trace w (trace w ++ (a ++ b)).
Proof. unfold with_trace; simpl; now rewrite app_assoc. Qed.

Lemma analyzer_calls_app (a b : list Event) :
  analyzer_calls (a ++ b) = analyzer_calls a ++ analyzer_calls b.
Proof.
  induction a as [|e a IH]; simpl; [reflexivity|].
  destruct e; simpl; now rewrite IH.
Qed.

Lemma synthesizer_calls_app (a b : list Event) :
  synthesizer_calls (a ++ b) = synthesizer_calls a ++ synthesizer_calls b.
Proof.
  induction a as [|e a IH]; simpl; [reflexivity|].
  destruct e; simpl; now rewrite IH.
Qed.

Lemma quiet_analyzer_calls (evs : list Event) :
  Forall quiet evs -> analyzer_calls evs = [].
Proof.
  induction 1 as [|e evs He _ IH]; simpl; [reflexivity|].
  destruct e; simpl in *; auto; contradiction.
Qed.

Lemma quiet_synthesizer_calls (evs : list Event) :
  Forall quiet evs -> synthesizer_calls evs = [].
Proof.
  induction 1 as [|e evs He _ IH]; simpl; [reflexivity|].
  destruct e; simpl in *; auto; contradiction.
Qed.

Lemma only_adds_ret {A} ok (a : A) : only_adds ok (ret a).
Proof. intro w; exists []; simpl; split; [now rewrite with_trace_nil | constructor]. Qed.

Lemma only_adds_throw {A} ok (e : exn) : only_adds ok (@throw _ A e).
Proof. intro w; exists []; simpl; split; [now rewrite with_trace_nil | constructor]. Qed.

Lemma only_adds_lift {A} ok (r : result A) : only_adds ok (lift r).
Proof. intro w; exists []; simpl; split; [now rewrite with_trace_nil | constructor]. Qed.

Lemma only_adds_gets {A} ok (f : World -> A) : only_adds ok (gets f).
Proof. intro w; exists []; simpl; split; [now rewrite with_trace_nil | constructor]. Qed.

Lemma only_adds_emit (ok : Event -> Prop) (e : Event) :
  ok e -> only_adds ok (emit e).
Proof. intros He w; exists [e]; simpl; split; [reflexivity | now constructor]. Qed.

Lemma only_adds_bind {A B} ok (m : M A) (k : A -> M B) :
  only_adds ok m -> (forall a, only_adds ok (k a)) -> only_adds ok (bind m k).
Proof.
  intros Hm Hk w. unfold bind.
  destruct (Hm w) as [evs [Ew Hevs]].
  destruct (m w) as [[a|e] w']; simpl in Ew; subst w'.
  - destruct (Hk a (with_trace w (trace w ++ evs))) as [evs' [Ew' Hevs']].
    exists (evs ++ evs'); split.
    + now rewrite Ew', with_trace_app.
    + now apply Forall_app.
  - now exists evs.
Qed.

Lemma only_adds_try_catch {A} ok (m : M A) (h : exn -> M A) :
  only_adds ok m -> (forall e, only_adds ok (h e)) ->
  only_adds ok (try_catch m h).
Proof.
  intros Hm Hh w. unfold try_catch.
  destruct (Hm w) as [evs [Ew Hevs]].
  destruct (m w) as [[a|e] w']; simpl in Ew; subst w'.
  - now exists evs.
  - destruct (Hh e (with_trace w (trace w ++ evs))) as [evs' [Ew' Hevs']].
    exists (evs ++ evs'); split.
    + now rewrite Ew', with_trace_app.
    + now apply Forall_app.
Qed.

(** Closure of [only_adds] under the combinators, one step at a time. *)
Ltac history_step :=
  first
    [ apply only_adds_ret | apply only_adds_throw | apply only_adds_lift
    | apply only_adds_gets | apply only_adds_emit; exact I
    | apply only_adds_bind; [|intro]
    | apply only_adds_try_catch; [|intro]
    | match goal with
      | |- only_adds _ (match ?x with _ => _ end) => destruct x
      end ].

Ltac history := repeat history_step.

Lemma callVisionAPI_quiet image sys usr temp json mdl :
  only_adds quiet (callVisionAPI image sys usr temp json mdl).
Proof. unfold callVisionAPI, fetch; history. Qed.

Lemma analyzeMainDesignChoices_quiet image temp :
  only_adds quiet (analyzeMainDesignChoices image temp).
Proof.
  unfold analyzeMainDesignChoices; history; apply callVisionAPI_quiet.
Qed.

Lemma describeActivity_quiet image : only_adds quiet (describeActivity image).
Proof. unfold describeActivity; history; apply callVisionAPI_quiet. Qed.

Lemma getComponents_quiet method image cap :
  only_adds quiet (getComponents (createDetector method image cap)).
Proof.
  unfold createDetector, getDetectionTerm; simpl; history;
    apply callVisionAPI_quiet.
Qed.

(** ** Configuration *)

(** C8: [setPromptChoice] with anything but ['concise'] or ['extensive']
    throws the invalid-choice error and leaves the whole configuration, and
    with it the stored prompt choice, as it was; with either of the two
    levels it succeeds and the stored prompt choice is the given level. *)
Theorem setPromptChoice_validates (choice : value) (w : World) :
  (choice <> VStr (lit "concise") -> choice <> VStr (lit "extensive") ->
   setPromptChoice choice w = (Throw invalid_prompt_choice, w))
  /\ (choice = VStr (lit "concise") \/ choice = VStr (lit "extensive") ->
      setPromptChoice choice w = (Ok tt, set_PROMPT_CHOICE choice w)
      /\ getPromptChoice (set_PROMPT_CHOICE choice w)
         = (Ok choice, set_PROMPT_CHOICE choice w)).
Proof.
  split.
  - intros Hc He. unfold setPromptChoice, strict_eq_str.
    destruct choice; try reflexivity.
    destruct (jsstring_dec s (lit "concise")) as [->|_]; [contradiction|].
    destruct (jsstring_dec s (lit "extensive")) as [->|_]; [contradiction|].
    reflexivity.
  - intros [-> | ->]; split; reflexivity.
Qed.

(** ** The Component Analyzer *)

Lemma returned_eq {A} (a b : A) (w w' : World) :
  (Ok a, w) = (Ok b, w') -> a = b /\ w = w'.
Proof. intros H. injection H as Ha Hw. now split. Qed.

Lemma failed_eq {A} (e e' : exn) (w w' : World) :
  (@Throw A e, w) = (Throw e', w') -> e = e' /\ w = w'.
Proof. intros H. injection H as He Hw. now split. Qed.

Lemma analyzeDetection_unfold image index location w :
  analyzeDetection image index location w
  = match ToString location with
    | Ok label =>
      match callVisionAPI image VISION_ANALYSIS_PROMPT
              (UserText (analysis_prompt (DETECTION_TERM w) index label))
              (1 # 10)%Q true gpt_4o
              (snd (emit (Enter_analyzeDetection index location) w)) with
      | (Ok raw, w') => (Ok (location_marker label ++ raw), w')
      | (Throw e, w') => (Throw e, w')
      end
    | Throw e => (Throw e, snd (emit (Enter_analyzeDetection index location) w))
    end.
Proof.
  unfold analyzeDetection, bind, lift, getDetectionTerm, gets, ret, emit.
  cbn [fst snd].
  destruct (ToString location) as [label|e1]; [|reflexivity].
  match goal with |- context [callVisionAPI ?a ?b ?c ?d ?e ?f ?g] =>
    destruct (callVisionAPI a b c d e f g) as [[raw|e0] w'] end; reflexivity.
Qed.

Lemma analyzer_reply_unfold image index location w :
  analyzer_reply image index location w
  = match ToString location with
    | Ok label =>
      callVisionAPI image VISION_ANALYSIS_PROMPT
        (UserText (analysis_prompt (DETECTION_TERM w) index label))
        (1 # 10)%Q true gpt_4o
        (snd (emit (Enter_analyzeDetection index location) w))
    | Throw e => (Throw e, snd (emit (Enter_analyzeDetection index location) w))
    end.
Proof.
  unfold analyzer_reply, bind, lift.
  destruct (ToString location) as [label|e1]; [|reflexivity].
  match goal with |- context [callVisionAPI ?a ?b ?c ?d ?e ?f ?g] =>
    destruct (callVisionAPI a b c d e f g) as [[raw|e0] w'] end; reflexivity.
Qed.

(** C9: a successful [analyzeDetection] with location label [L] returns the
    marker line [[Location: L]], a newline, and then the text that its
    Gateway call returned. *)
Theorem analyzeDetection_location_marker
    (image : Image) (index : nat) (L : jsstring) (w w' : World)
    (analysis : jsstring) :
  analyzeDetection image index (VStr L) w = (Ok analysis, w') ->
  exists raw,
    analyzer_reply image index (VStr L) w = (Ok raw, w')
    /\ analysis = lit "[Location: " ++ L ++ lit "]" ++ [LF] ++ raw.
Proof.
  rewrite analyzeDetection_unfold, analyzer_reply_unfold. cbn [ToString].
  match goal with |- context [callVisionAPI ?a ?b ?c ?d ?e ?f ?g] =>
    destruct (callVisionAPI a b c d e f g) as [[raw|e0] w1] end;
    intro H; inversion H; subst.
  exists raw; split; [reflexivity|].
  unfold location_marker.
  now rewrite <- !app_assoc.
Qed.

(** ** Design Analyzer and Activity Describer *)

(** C3 (as the code has it), each stage by itself: whenever the Gateway
    call of the Design Analyzer fails, the Design Analyzer returns its fixed
    sentinel, whatever the call of the Activity Describer would do; and
    whenever the Gateway call of the Activity Describer fails, the Activity
    Describer, which has no handler, passes that exception on to its
    caller, whatever the call of the Design Analyzer would do. *)
Theorem design_sentinel_activity_propagates
    (image : Image) (temp : option Q) (w w1 w2 : World) (e1 e2 : exn) :
  (design_reply image (match temp with Some t => t | None => (1 # 10)%Q end) w
   = (Throw e1, w1) ->
   analyzeMainDesignChoices image temp w = (Ok design_error_sentinel, w1))
  /\ (activity_reply image w = (Throw e2, w2) ->
      describeActivity image w = (Throw e2, w2)).
Proof.
  unfold design_reply, activity_reply, analyzeMainDesignChoices,
    describeActivity, bind, try_catch.
  simpl. split; intros ->; reflexivity.
Qed.

(** ** The Prompt Synthesizer *)

Lemma starts_withb_spec (p s : jsstring) :
  starts_withb p s = true <-> starts_with p s.
Proof.
  revert s; induction p as [|a p IH]; intros s; simpl.
  - split; [intros _; now exists s | reflexivity].
  - destruct s as [|b s].
    + split; [discriminate | intros [t Ht]; discriminate].
    + rewrite andb_true_iff, N.eqb_eq, IH. split.
      * intros [-> [t ->]]. now exists t.
      * intros [t Ht]. inversion Ht; subst. split; [reflexivity | now exists t].
Qed.

Lemma finalPrompt_prefix (superPrompt : jsstring) :
  starts_with build_prefix (finalPrompt superPrompt).
Proof. now exists (cleanedPrompt superPrompt). Qed.

Lemma substring0_finalPrompt (superPrompt : jsstring) :
  substring0 50 (finalPrompt superPrompt)
  = build_prefix ++ firstn 34 (cleanedPrompt superPrompt).
Proof.
  unfold substring0, finalPrompt.
  rewrite firstn_app. reflexivity.
Qed.

Lemma callSuperPrompt_unfold main comps act (w : World) :
  callSuperPrompt main comps act w
  = (Ok (mock_prefix
         ++ substring0 50
              (finalPrompt
                 (concise_template (DETECTION_TERM w)
                    (regionSpecs (DETECTION_TERM w) comps)
                    (layoutSection main) act))
         ++ lit "..."),
     snd (emit (Enter_callSuperPrompt main comps act) w)).
Proof. reflexivity. Qed.

(** C2 (as the code has it): the prompt that [callSuperPrompt] builds begins
    with "Build this app: ", and the text it returns is the mock response:
    the mock lead-in, the first 50 code units of that prompt, and an
    ellipsis, so it begins with the lead-in followed by "Build this app: ". *)
Theorem callSuperPrompt_mock_response
    (main : jsstring) (comps : list jsstring) (act : jsstring) (w : World) :
  exists superPrompt w',
    fst (buildSuperPrompt main comps act VUndefined
           (snd (emit (Enter_callSuperPrompt main comps act) w)))
    = Ok superPrompt
    /\ callSuperPrompt main comps act w
       = (Ok (mock_prefix ++ substring0 50 (finalPrompt superPrompt)
              ++ lit "..."), w')
    /\ starts_with build_prefix (finalPrompt superPrompt)
    /\ starts_with (mock_prefix ++ build_prefix)
         (mock_prefix ++ substring0 50 (finalPrompt superPrompt) ++ lit "...")
    /\ ~ starts_with build_prefix
         (mock_prefix ++ substring0 50 (finalPrompt superPrompt) ++ lit "...").
Proof.
  exists (concise_template (DETECTION_TERM w)
            (regionSpecs (DETECTION_TERM w) comps) (layoutSection main) act).
  exists (snd (emit (Enter_callSuperPrompt main comps act) w)).
  split; [reflexivity|].
  split; [apply callSuperPrompt_unfold|].
  split; [apply finalPrompt_prefix|].
  rewrite substring0_finalPrompt. split.
  - eexists. rewrite <- !app_assoc. reflexivity.
  - intros [t Ht]. discriminate Ht.
Qed.

(** ** The Component Detector *)

Lemma getComponents_unfold method image cap (w : World) :
  getComponents (createDetector method image cap) w
  = let n := match cap with Some n => n | None => MAX_UI_COMPONENTS end in
    match detector_reply image n w with
    | (Ok response, w') =>
      (match detections_of_reply (DETECTION_TERM w) n response with
       | Ok ds => Ok ds
       | Throw _ => Ok []
       end, w')
    | (Throw _, w') => (Ok [], w')
    end.
Proof.
  unfold createDetector, detector_reply, detections_of_reply.
  cbv beta iota zeta
      delta [getComponents bind try_catch getDetectionTerm gets emit snd
             lift ret throw rbind].
  match goal with |- context [callVisionAPI ?a ?b ?c ?d ?e ?f ?g] =>
    destruct (callVisionAPI a b c d e f g) as [[response|e0] w'] end;
    [|reflexivity].
  destruct (JSON_parse response) as [parsed|]; cbv beta iota; [|reflexivity].
  destruct (get_prop parsed (lit "components")) as [components|];
    cbv beta iota; [|reflexivity].
  destruct (length_truthy (or_else components (VArr []))) as [[|]|];
    cbv beta iota delta [negb]; try reflexivity.
  destruct (or_else components (VArr [])); cbv beta iota; try reflexivity.
  match goal with |- context [map_result ?f ?i ?l] =>
    destruct (map_result f i l) end; reflexivity.
Qed.

Lemma map_result_length {A B} (f : A -> nat -> result B) (l : list A) :
  forall i ys, map_result f i l = Ok ys -> length ys = length l.
Proof.
  induction l as [|x l IH]; intros i ys; simpl.
  - intros H; inversion H; reflexivity.
  - unfold rbind. destruct (f x i); [|discriminate].
    destruct (map_result f (S i) l) eqn:E; [|discriminate].
    intros H; inversion H; subst; simpl. f_equal. eapply IH; eassumption.
Qed.

Lemma map_result_nth {A B} (f : A -> nat -> result B) (l : list A) :
  forall i ys, map_result f i l = Ok ys ->
  forall k x, nth_error l k = Some x ->
  exists y, nth_error ys k = Some y /\ f x (i + k) = Ok y.
Proof.
  induction l as [|x0 l IH]; intros i ys; simpl.
  - intros _ [|k] x H; discriminate.
  - unfold rbind. destruct (f x0 i) eqn:E0; [|discriminate].
    destruct (map_result f (S i) l) eqn:E; [|discriminate].
    intros H; inversion H; subst. intros [|k] x Hx; simpl in Hx.
    + inversion Hx; subst. exists a; split; [reflexivity|].
      now rewrite Nat.add_0_r.
    + destruct (IH _ _ E k x Hx) as [y [Hy Hf]].
      exists y; split; [exact Hy|].
      now replace (i + S k)%nat with (S i + k)%nat by lia.
Qed.

Lemma js_slice_from_0 {A} (cap : Z) (a : list A) :
  (0 <= cap)%Z -> js_slice 0 cap a = firstn (Z.to_nat cap) a.
Proof.
  intros Hcap. unfold js_slice.
  replace (0 <? 0)%Z with false by reflexivity.
  destruct (cap <? 0)%Z eqn:E; [apply Z.ltb_lt in E; lia|].
  rewrite (Z.min_l 0) by lia. simpl skipn. rewrite Z.sub_0_r.
  destruct (Z.le_ge_cases cap (Z.of_nat (length a))).
  - now rewrite Z.min_l.
  - rewrite Z.min_r, Nat2Z.id by assumption.
    rewrite firstn_all. symmetry. apply firstn_all2. lia.
Qed.

Lemma js_slice_from_0_length {A} (cap : Z) (a : list A) :
  (0 <= cap)%Z ->
  length (js_slice 0 cap a) = Nat.min (Z.to_nat cap) (length a).
Proof. intros H. rewrite js_slice_from_0 by exact H. apply length_firstn. Qed.

Lemma detections_of_reply_length term cap response ds :
  (0 <= cap)%Z ->
  detections_of_reply term cap response = Ok ds ->
  (Z.of_nat (length ds) <= cap)%Z.
Proof.
  intros Hcap. unfold detections_of_reply, rbind.
  destruct (JSON_parse response) as [parsed|]; [|discriminate].
  destruct (get_prop parsed (lit "components")) as [components|]; [|discriminate].
  destruct (length_truthy (or_else components (VArr []))) as [[|]|];
    [| intros H; inversion H; simpl; lia | discriminate].
  simpl negb. cbv iota.
  destruct (or_else components (VArr [])); try discriminate.
  intros H. apply map_result_length in H.
  rewrite H, js_slice_from_0_length by exact Hcap. lia.
Qed.

(** C4: with a cap of at least one, [getComponents] returns (it never
    throws) a sequence of at most [cap] detections, whatever the reply. *)
Theorem getComponents_at_most_cap
    (method : DetectionMethod) (image : Image) (cap : Z) (w : World) :
  (1 <= cap)%Z ->
  exists ds w',
    getComponents (createDetector method image (Some cap)) w = (Ok ds, w')
    /\ (Z.of_nat (length ds) <= cap)%Z.
Proof.
  intros Hcap. rewrite getComponents_unfold. cbv zeta.
  destruct (detector_reply image cap w) as [[response|e] w'].
  - destruct (detections_of_reply (DETECTION_TERM w) cap response) as [ds|e] eqn:E.
    + exists ds, w'; split; [reflexivity|].
      eapply detections_of_reply_length; [|exact E]. lia.
    + exists [], w'; split; [reflexivity | simpl; lia].
  - exists [], w'; split; [reflexivity | simpl; lia].
Qed.

(** C5: a reply that is not JSON, or whose [components] key is absent or an
    empty array, makes [getComponents] return the empty sequence; nothing is
    thrown. *)
Theorem getComponents_empty_on_bad_reply
    (method : DetectionMethod) (image : Image) (cap : option Z)
    (w w' : World) (response : jsstring) :
  detector_reply image
    (match cap with Some n => n | None => MAX_UI_COMPONENTS end) w
  = (Ok response, w') ->
  (JSON_parse response = None
   \/ exists parsed,
        JSON_parse response = Some parsed
        /\ components_absent_or_empty parsed) ->
  getComponents (createDetector method image cap) w = (Ok [], w').
Proof.
  intros Hreply Hbad. rewrite getComponents_unfold. cbv zeta.
  rewrite Hreply. unfold detections_of_reply.
  destruct Hbad as [-> | [parsed [-> Hparsed]]]; [reflexivity|].
  destruct parsed as [| | b | n | s | a | fields]; try reflexivity.
  unfold components_absent_or_empty in Hparsed. unfold get_prop.
  destruct (lookup (lit "components") fields) as [[| | | | | [|x a] |]|];
    try contradiction; reflexivity.
Qed.

Lemma get_prop_member (v : value) (k : string) :
  v <> VUndefined -> v <> VNull -> get_prop v (lit k) = Ok (member v k).
Proof.
  intros Hu Hn. unfold member.
  destruct v; try contradiction; try reflexivity.
  unfold get_prop. destruct (lookup (lit k) fields); reflexivity.
Qed.

Lemma truthy_defined (v : value) :
  truthy v = true -> v <> VUndefined /\ v <> VNull.
Proof. destruct v; simpl; intros H; split; congruence. Qed.

(** The record that the callback builds from an item that is neither [null]
    nor [undefined]. *)
Lemma toDetection_closed_form term item index :
  item <> VUndefined -> item <> VNull ->
  toDetection term item index
  = Ok {| type := or_else (member item "type") (VStr (lit "component"));
          bbox := bbox_of item;
          confidence := or_else (member item "confidence") (VNum num_one);
          text := or_else (member item "text")
                    (or_else (member item "location")
                       (VStr (term ++ lit " " ++ string_of_index index))) |}.
Proof.
  intros Hu Hn. unfold toDetection, bbox_of.
  rewrite !(get_prop_member _ Hu Hn). cbv beta iota delta [rbind].
  destruct (isArray (member item "bbox")); [reflexivity|].
  destruct (truthy (member item "box")) eqn:Hbox; [|reflexivity].
  destruct (truthy_defined _ Hbox) as [Hbu Hbn].
  rewrite !(get_prop_member _ Hbu Hbn). reflexivity.
Qed.

Lemma member_object fields (k : string) :
  member (VObj fields) k
  = match lookup (lit k) fields with Some x => x | None => VUndefined end.
Proof. unfold member, get_prop. destruct (lookup (lit k) fields); reflexivity. Qed.

(** C6 (as the code has it): for an item that is an object, a missing
    [confidence] becomes 1.0; a missing [text] becomes the location string,
    or the term and the index when that is missing too; an array under
    [bbox] is kept as it is, whatever its length; failing that, an object
    under the key [box] is turned into the four coordinates, a missing one
    being 0; and [bbox] is four zeros when [bbox] holds neither an array nor
    an object and there is no [box]. *)
Theorem toDetection_defaults
    (term : jsstring) (fields : list (jsstring * value)) (index : nat) :
  exists d,
    toDetection term (VObj fields) index = Ok d
    /\ (lookup (lit "confidence") fields = None ->
        confidence d = VNum num_one)
    /\ (lookup (lit "text") fields = None ->
        (forall loc, lookup (lit "location") fields = Some (VStr loc) ->
                     loc <> [] -> text d = VStr loc)
        /\ (lookup (lit "location") fields = None ->
            text d = VStr (term ++ lit " " ++ string_of_index index)))
    /\ (forall a, lookup (lit "bbox") fields = Some (VArr a) ->
                  bbox d = VArr a)
    /\ ((forall a, lookup (lit "bbox") fields <> Some (VArr a)) ->
        (forall box, lookup (lit "box") fields = Some (VObj box) ->
                     bbox d = VArr [coordinate box "x"; coordinate box "y";
                                    coordinate box "width";
                                    coordinate box "height"])
        /\ ((forall o, lookup (lit "bbox") fields <> Some (VObj o)) ->
            lookup (lit "box") fields = None -> bbox d = zero_box)).
Proof.
  eexists. split.
  { apply toDetection_closed_form; discriminate. }
  cbn [type bbox confidence text]. rewrite !member_object.
  split; [intros ->; reflexivity|].
  split.
  { intros ->. split.
    - intros loc -> Hloc. unfold or_else; simpl.
      destruct loc; [contradiction | reflexivity].
    - intros ->. reflexivity. }
  unfold bbox_of. rewrite !member_object.
  split; [intros a ->; reflexivity|].
  intros Hnot. split.
  - intros box Hbox.
    destruct (lookup (lit "bbox") fields) as [[]|];
      try (exfalso; eapply Hnot; reflexivity);
      rewrite Hbox; cbn [isArray truthy]; rewrite !member_object;
      unfold coordinate;
      repeat match goal with
             | |- context [lookup ?k box] => destruct (lookup k box)
             end; reflexivity.
  - intros _ Hbox.
    destruct (lookup (lit "bbox") fields) as [[]|];
      try (exfalso; eapply Hnot; reflexivity);
      rewrite Hbox; reflexivity.
Qed.

Lemma toDetection_object_total term fields index :
  exists d, toDetection term (VObj fields) index = Ok d.
Proof. eexists; apply toDetection_closed_form; discriminate. Qed.

Lemma map_result_total {A B} (f : A -> nat -> result B) (ok : A -> Prop) :
  (forall x i, ok x -> exists y, f x i = Ok y) ->
  forall l i, Forall ok l -> exists ys, map_result f i l = Ok ys.
Proof.
  intros Hf l. induction l as [|x l IH]; intros i Hl; simpl.
  - now exists [].
  - inversion Hl; subst. destruct (Hf x i) as [y Hy]; [assumption|].
    destruct (IH (S i)) as [ys Hys]; [assumption|].
    exists (y :: ys). unfold rbind. now rewrite Hy, Hys.
Qed.

Lemma Forall_prefix {A} (ok : A -> Prop) (n : nat) (l : list A) :
  Forall ok l -> Forall ok (firstn n l).
Proof.
  intros H; revert n. induction H as [|x l Hx _ IH]; intros [|n]; simpl;
    constructor; auto.
Qed.

(** X16: when the reply holds a non-empty array of objects under
    [components], [getComponents] keeps the first [cap] of them, each turned
    into a detection by the callback at its position. *)
Lemma getComponents_truncates
    (method : DetectionMethod) (image : Image) (cap : Z) (w w' : World)
    (response : jsstring) (fields : list (jsstring * value))
    (x : value) (a : list value) :
  (0 <= cap)%Z ->
  detector_reply image cap w = (Ok response, w') ->
  JSON_parse response = Some (VObj fields) ->
  lookup (lit "components") fields = Some (VArr (x :: a)) ->
  Forall is_object (x :: a) ->
  exists ds,
    getComponents (createDetector method image (Some cap)) w = (Ok ds, w')
    /\ length ds = Nat.min (Z.to_nat cap) (length (x :: a))
    /\ forall k item, nth_error (firstn (Z.to_nat cap) (x :: a)) k = Some item ->
         exists d, nth_error ds k = Some d
                   /\ toDetection (DETECTION_TERM w) item k = Ok d.
Proof.
  intros Hcap Hreply Hparse Hcomp Hobj.
  rewrite getComponents_unfold. cbv zeta. rewrite Hreply.
  unfold detections_of_reply. rewrite Hparse.
  unfold get_prop. rewrite Hcomp.
  cbv beta iota delta [rbind or_else truthy].
  change (length_truthy (VArr (x :: a))) with (@Ok bool true).
  cbv beta iota delta [negb].
  destruct (@map_result_total _ _ (toDetection (DETECTION_TERM w)) is_object)
    with (l := js_slice 0 cap (x :: a)) (i := 0%nat) as [ds Hds].
  - intros [] i Hv; try contradiction. apply toDetection_object_total.
  - rewrite js_slice_from_0 by exact Hcap. now apply Forall_prefix.
  - rewrite Hds. exists ds. split; [reflexivity|]. split.
    + rewrite (map_result_length _ _ _ Hds).
      now apply js_slice_from_0_length.
    + intros k item Hk. rewrite <- js_slice_from_0 in Hk by exact Hcap.
      exact (map_result_nth _ _ _ Hds k Hk).
Qed.

(** ** The pipeline *)

Lemma quiet_step {A} (m : M A) (w w' : World) (r : result A) :
  only_adds quiet m -> m w = (r, w') ->
  DETECTION_TERM w' = DETECTION_TERM w
  /\ analyzer_calls (trace w') = analyzer_calls (trace w)
  /\ synthesizer_calls (trace w') = synthesizer_calls (trace w).
Proof.
  intros Hm E. destruct (Hm w) as [evs [Ew Hevs]].
  rewrite E in Ew; simpl in Ew; subst w'. simpl.
  rewrite analyzer_calls_app, synthesizer_calls_app.
  rewrite (quiet_analyzer_calls Hevs), (quiet_synthesizer_calls Hevs).
  now rewrite !app_nil_r.
Qed.

(** C1 (as the code has it): when the detector returns no detections,
    [processImage] returns the placeholder result: [mainDesign] is the
    "No ...s detected." text, [componentAnalyses] is the empty list and
    [finalAnalysis] is "Error during analysis"; the run ends in the world the
    detector left, so neither the Component Analyzer nor the Prompt
    Synthesizer is invoked. *)
Theorem processImage_no_detections
    (image : Image) (minArea : value) (maxDetections : option Z)
    (w w1 : World) :
  getComponents
    (createDetector (DETECTION_METHOD w) image
       (Some (match maxDetections with
              | Some n => n
              | None => MAX_UI_COMPONENTS
              end))) w
  = (Ok [], w1) ->
  processImage image minArea maxDetections w
  = (Ok {| mainDesign := lit "No " ++ DETECTION_TERM w ++ lit "s detected.";
           componentAnalyses := [];
           finalAnalysis := lit "Error during analysis" |}, w1)
  /\ analyzer_calls (trace w1) = analyzer_calls (trace w)
  /\ synthesizer_calls (trace w1) = synthesizer_calls (trace w).
Proof.
  intros Hdet.
  destruct (@quiet_step _ _ _ _ _ (getComponents_quiet _ _ _) Hdet) as [Hterm [Ha Hs]].
  split; [|split; assumption].
  unfold processImage, processImage_try, try_catch, bind, getSplittingMode,
    getDetectionTerm, gets, ret.
  rewrite Hdet, Hterm. reflexivity.
Qed.

Lemma analyzeDetection_step image index location (w w' : World) analysis :
  analyzeDetection image index location w = (Ok analysis, w') ->
  (exists label,
     ToString location = Ok label
     /\ starts_with (location_marker label) analysis)
  /\ analyzer_calls (trace w')
     = analyzer_calls (trace w) ++ [(index, location)].
Proof.
  rewrite analyzeDetection_unfold.
  destruct (ToString location) as [label|e1]; [|discriminate].
  match goal with |- context [callVisionAPI ?a ?b ?c ?d ?e ?f ?g] =>
    destruct (callVisionAPI a b c d e f g) as [[raw|e0] w2] eqn:E end;
    intro H; inversion H; subst.
  split; [exists label; split; [reflexivity | now exists raw]|].
  destruct (@quiet_step _ _ _ _ _ (callVisionAPI_quiet _ _ _ _ _ _) E) as [_ [Ha _]].
  rewrite Ha. simpl. now rewrite analyzer_calls_app.
Qed.

Lemma analyze_each_spec image (detections : list UIDetection) :
  forall i acc (w w' : World) res,
    analyze_each image detections i acc w = (Ok res, w') ->
    exists summaries,
      res = acc ++ summaries
      /\ Forall2 (fun d s =>
                    exists label,
                      ToString (text d) = Ok label
                      /\ starts_with (location_marker label) s)
                 detections summaries
      /\ analyzer_calls (trace w')
         = analyzer_calls (trace w)
           ++ mapi_from (fun d k => (k, text d)) i detections.
Proof.
  induction detections as [|d ds IH]; intros i acc w w' res; simpl.
  - unfold ret. intros H; inversion H; subst.
    exists []. now rewrite !app_nil_r.
  - unfold bind.
    destruct (analyzeDetection image i (text d) w) as [[s|e] w1] eqn:E;
      [|discriminate].
    intros H. destruct (IH _ _ _ _ _ H) as [ss [-> [HF Ht]]].
    destruct (analyzeDetection_step _ _ _ _ E) as [Hs Ht1].
    exists (s :: ss). split; [now rewrite <- app_assoc|].
    split; [now constructor|].
    now rewrite Ht, Ht1, <- app_assoc.
Qed.

(** C7: when the detector returns [n > 0] detections and the [try] block of
    [processImage] ends without an exception, the result has exactly [n]
    component analyses; the Component Analyzer was entered once a detection,
    in detection order, with the indices 0 to n-1 and the detection's [text]
    as location; and the [text] of the i-th detection converts to a string,
    with whose location marker the i-th analysis starts. *)
Theorem processImage_one_analysis_per_detection
    (image : Image) (minArea : value) (maxDetections : option Z)
    (w w1 w' : World) (detections : list UIDetection) (r : AnalysisResponse) :
  getComponents
    (createDetector (DETECTION_METHOD w) image
       (Some (match maxDetections with
              | Some n => n
              | None => MAX_UI_COMPONENTS
              end))) w
  = (Ok detections, w1) ->
  detections <> [] ->
  processImage_try image minArea maxDetections w = (Ok r, w') ->
  processImage image minArea maxDetections w = (Ok r, w')
  /\ length (componentAnalyses r) = length detections
  /\ analyzer_calls (trace w')
     = analyzer_calls (trace w) ++ mapi (fun d i => (i, text d)) detections
  /\ Forall2 (fun d s =>
                exists label,
                  ToString (text d) = Ok label
                  /\ starts_with (location_marker label) s)
             detections (componentAnalyses r).
Proof.
  intros Hdet Hne Htry.
  split; [unfold processImage, try_catch; now rewrite Htry|].
  destruct (@quiet_step _ _ _ _ _ (getComponents_quiet _ _ _) Hdet) as [_ [Ha1 _]].
  revert Htry.
  unfold processImage_try, bind, getSplittingMode, gets.
  rewrite Hdet. destruct detections as [|d ds]; [contradiction|].
  destruct (analyzeMainDesignChoices image None w1) as [[main|e] w2] eqn:E2;
    [|discriminate].
  destruct (describeActivity image w2) as [[act|e] w3] eqn:E3; [|discriminate].
  destruct (analyze_each image (d :: ds) 0 [] w3) as [[res|e] w4] eqn:E4;
    [|discriminate].
  rewrite callSuperPrompt_unfold. unfold ret.
  intros H. apply returned_eq in H. destruct H as [<- <-].
  cbn [componentAnalyses].
  destruct (@quiet_step _ _ _ _ _ (analyzeMainDesignChoices_quiet _ _) E2) as [_ [Ha2 _]].
  destruct (@quiet_step _ _ _ _ _ (describeActivity_quiet _) E3) as [_ [Ha3 _]].
  destruct (analyze_each_spec _ _ _ _ _ E4) as [ss [-> [HF Ha4]]].
  simpl app. split; [symmetry; eapply Forall2_length; eassumption|].
  split; [|assumption].
  simpl trace. rewrite analyzer_calls_app. simpl analyzer_calls.
  rewrite app_nil_r, Ha4, Ha3, Ha2, Ha1. reflexivity.
Qed.

(** ** The stored prompt choice is never read *)

Lemma ignores_ret {A} (a : A) : ignores_choice (ret a).
Proof. intros c w; reflexivity. Qed.

Lemma ignores_throw {A} (e : exn) : ignores_choice (@throw _ A e).
Proof. intros c w; reflexivity. Qed.

Lemma ignores_lift {A} (r : result A) : ignores_choice (lift r).
Proof. intros c w; reflexivity. Qed.

Lemma ignores_emit (e : Event) : ignores_choice (emit e).
Proof. intros c w; reflexivity. Qed.

Lemma ignores_gets {A} (f : World -> A) :
  (forall c w, f (set_PROMPT_CHOICE c w) = f w) -> ignores_choice (gets f).
Proof. intros Hf c w; unfold gets; now rewrite Hf. Qed.

Lemma ignores_bind {A B} (m : M A) (k : A -> M B) :
  ignores_choice m -> (forall a, ignores_choice (k a)) ->
  ignores_choice (bind m k).
Proof.
  intros Hm Hk c w. unfold bind. rewrite Hm.
  destruct (m w) as [[a|e] w1]; simpl; [apply Hk | reflexivity].
Qed.

Lemma ignores_try_catch {A} (m : M A) (h : exn -> M A) :
  ignores_choice m -> (forall e, ignores_choice (h e)) ->
  ignores_choice (try_catch m h).
Proof.
  intros Hm Hh c w. unfold try_catch. rewrite Hm.
  destruct (m w) as [[a|e] w1]; simpl; [reflexivity | apply Hh].
Qed.

Ltac ignoring_step :=
  first
    [ apply ignores_ret | apply ignores_throw | apply ignores_lift
    | apply ignores_emit
    | apply ignores_gets; reflexivity
    | apply ignores_bind; [|intro]
    | apply ignores_try_catch; [|intro]
    | match goal with
      | |- ignores_choice (match ?x with _ => _ end) => destruct x
      end ].

Ltac ignoring := repeat ignoring_step.

Lemma callVisionAPI_ignores image sys usr temp json mdl :
  ignores_choice (callVisionAPI image sys usr temp json mdl).
Proof. unfold callVisionAPI, fetch; ignoring. Qed.

Lemma getComponents_ignores method image cap :
  ignores_choice (getComponents (createDetector method image cap)).
Proof.
  unfold createDetector, getDetectionTerm; simpl; ignoring;
    apply callVisionAPI_ignores.
Qed.

Lemma analyzeMainDesignChoices_ignores image temp :
  ignores_choice (analyzeMainDesignChoices image temp).
Proof.
  unfold analyzeMainDesignChoices; ignoring; apply callVisionAPI_ignores.
Qed.

Lemma describeActivity_ignores image : ignores_choice (describeActivity image).
Proof. unfold describeActivity; ignoring; apply callVisionAPI_ignores. Qed.

Lemma analyzeDetection_ignores image index location :
  ignores_choice (analyzeDetection image index location).
Proof.
  unfold analyzeDetection, getDetectionTerm; ignoring;
    apply callVisionAPI_ignores.
Qed.

Lemma analyze_each_ignores image detections :
  forall i acc, ignores_choice (analyze_each image detections i acc).
Proof.
  induction detections as [|d ds IH]; intros i acc; simpl.
  - apply ignores_ret.
  - apply ignores_bind; [apply analyzeDetection_ignores | intro; apply IH].
Qed.

Lemma callSuperPrompt_ignores main comps act :
  ignores_choice (callSuperPrompt main comps act).
Proof. intros c w. reflexivity. Qed.

Lemma processImage_ignores image minArea maxDetections :
  ignores_choice (processImage image minArea maxDetections).
Proof.
  unfold processImage, processImage_try, getSplittingMode, getDetectionTerm.
  cbv zeta. ignoring;
    first [ apply getComponents_ignores | apply analyzeMainDesignChoices_ignores
          | apply describeActivity_ignores | apply analyze_each_ignores
          | apply callSuperPrompt_ignores ].
Qed.

Lemma templates_differ (term specs layout act : jsstring) :
  concise_template term specs layout act
  <> extensive_template term specs layout act.
Proof.
  unfold concise_template, extensive_template. intros H.
  apply (f_equal (firstn 1)) in H.
  rewrite !firstn_app in H. vm_compute in H. discriminate H.
Qed.

(** C10: [callSuperPrompt] builds its prompt from the concise template
    whatever prompt choice is stored: its result is given by the concise
    template and the detection term alone, storing another choice changes
    neither its result nor the result of a whole run of [processImage]. *)
Theorem callSuperPrompt_always_concise
    (main : jsstring) (comps : list jsstring) (act : jsstring)
    (image : Image) (minArea : value) (maxDetections : option Z)
    (choice : value) (w : World) :
  fst (callSuperPrompt main comps act w)
  = Ok (mock_prefix
        ++ substring0 50
             (finalPrompt
                (concise_template (DETECTION_TERM w)
                   (regionSpecs (DETECTION_TERM w) comps)
                   (layoutSection main) act))
        ++ lit "...")
  /\ fst (callSuperPrompt main comps act (set_PROMPT_CHOICE choice w))
     = fst (callSuperPrompt main comps act w)
  /\ fst (processImage image minArea maxDetections (set_PROMPT_CHOICE choice w))
     = fst (processImage image minArea maxDetections w).
Proof.
  split; [now rewrite callSuperPrompt_unfold|].
  split.
  - now rewrite callSuperPrompt_ignores.
  - now rewrite processImage_ignores.
Qed.

(** ** Further facts about the stages *)

(** The detection term is ['component'] after every [setSplittingMode]. *)
Lemma setSplittingMode_term (method : DetectionMethod) (w : World) :
  DETECTION_TERM (snd (setSplittingMode method w)) = lit "component"
  /\ DETECTION_METHOD (snd (setSplittingMode method w)) = method.
Proof. split; reflexivity. Qed.

(** [getComponents] never throws, whatever the cap and the provider. *)
Lemma getComponents_never_throws method image cap (w : World) :
  exists ds, fst (getComponents (createDetector method image cap) w) = Ok ds.
Proof.
  rewrite getComponents_unfold. cbv zeta.
  match goal with |- context [detector_reply ?a ?b ?c] =>
    destruct (detector_reply a b c) as [[response|e] w'] end.
  - match goal with |- context [detections_of_reply ?a ?b ?c] =>
      destruct (detections_of_reply a b c) as [ds|e] end;
      eexists; reflexivity.
  - eexists; reflexivity.
Qed.

(** [processImage] never throws: an exception of its [try] block becomes
    the error result. *)
Lemma processImage_never_throws image minArea maxDetections (w : World) :
  exists r, fst (processImage image minArea maxDetections w) = Ok r.
Proof.
  unfold processImage, try_catch.
  destruct (processImage_try image minArea maxDetections w) as [[r|e] w'];
    eexists; reflexivity.
Qed.

Lemma processImage_catches image minArea maxDetections (w w' : World) e :
  processImage_try image minArea maxDetections w = (Throw e, w') ->
  processImage image minArea maxDetections w = (Ok error_result, w').
Proof. intros H. unfold processImage, try_catch. now rewrite H. Qed.

(** The numbered lines that the templates receive for two analyses. *)
Lemma regionSpecs_two (term a b : jsstring) :
  regionSpecs term [a; b]
  = capitalize term ++ lit " 1: " ++ a ++ [LF]
    ++ capitalize term ++ lit " 2: " ++ b.
Proof.
  unfold regionSpecs, mapi. simpl.
  change (string_of_index 1) with (lit "1").
  change (string_of_index 2) with (lit "2").
  rewrite <- !app_assoc. reflexivity.
Qed.

(** What the Gateway returns is the provider's content, trimmed. *)
Lemma callVisionAPI_returns_trimmed image sys usr temp json mdl
    (w w' : World) (raw : jsstring) :
  callVisionAPI image sys usr temp json mdl w = (Ok raw, w') ->
  exists request content,
    provider w (trace w) request = Reply content /\ raw = trim content.
Proof.
  cbv beta iota zeta
      delta [callVisionAPI try_catch bind lift gets fetch emit ret throw].
  destruct (imageToBase64 image) as [b64|e]; [|discriminate].
  destruct (openai_api_key w) as [[|c k]|]; try discriminate.
  match goal with |- context [provider w (trace w) ?r] =>
    destruct (provider w (trace w) r) as [e|m|content] eqn:E end;
    try discriminate.
  intros H; inversion H; subst. eauto.
Qed.

(** * Further properties of the code *)

(** ** The configuration is kept *)

Lemma only_adds_weaken {A} (ok ok' : Event -> Prop) (m : M A) :
  (forall e, ok e -> ok' e) -> only_adds ok m -> only_adds ok' m.
Proof.
  intros Himp Hm w. destruct (Hm w) as [evs [Ew Hevs]].
  exists evs; split; [exact Ew|].
  eapply Forall_impl; [|exact Hevs]. exact Himp.
Qed.

Lemma callVisionAPI_any image sys usr temp json mdl :
  only_adds any_event (callVisionAPI image sys usr temp json mdl).
Proof.
  eapply only_adds_weaken; [|apply callVisionAPI_quiet]. intros; exact I.
Qed.

Lemma analyzeDetection_any image index location :
  only_adds any_event (analyzeDetection image index location).
Proof.
  unfold analyzeDetection, getDetectionTerm; history;
    apply callVisionAPI_any.
Qed.

Lemma analyze_each_any image detections :
  forall i acc, only_adds any_event (analyze_each image detections i acc).
Proof.
  induction detections as [|d ds IH]; intros i acc; simpl.
  - apply only_adds_ret.
  - apply only_adds_bind; [apply analyzeDetection_any | intro; apply IH].
Qed.

Lemma callSuperPrompt_any main comps act :
  only_adds any_event (callSuperPrompt main comps act).
Proof.
  unfold callSuperPrompt, buildSuperPrompt, getDetectionTerm. cbv zeta.
  history.
Qed.

Lemma processImage_any image minArea maxDetections :
  only_adds any_event (processImage image minArea maxDetections).
Proof.
  unfold processImage, processImage_try, getSplittingMode, getDetectionTerm.
  cbv zeta. history;
    first [ eapply only_adds_weaken;
            [|first [ apply getComponents_quiet
                    | apply analyzeMainDesignChoices_quiet
                    | apply describeActivity_quiet ]]; intros; exact I
          | apply analyze_each_any | apply callSuperPrompt_any ].
Qed.

Lemma only_adds_keeps_config {A} ok (m : M A) (w : World) :
  only_adds ok m ->
  DETECTION_TERM (snd (m w)) = DETECTION_TERM w
  /\ DETECTION_METHOD (snd (m w)) = DETECTION_METHOD w
  /\ PROMPT_CHOICE (snd (m w)) = PROMPT_CHOICE w
  /\ openai_api_key (snd (m w)) = openai_api_key w.
Proof.
  intros Hm. destruct (Hm w) as [evs [-> _]]. repeat split.
Qed.

Lemma reactProcessImage_world image mode cap (w : World) :
  snd (reactProcessImage image mode cap w)
  = snd (processImage image VUndefined
           (Some (match cap with Some n => n | None => MAX_UI_COMPONENTS end))
           (snd (setSplittingMode mode w))).
Proof.
  set (w1 := snd (setSplittingMode mode w)).
  assert (H : setSplittingMode mode w = (Ok tt, w1)) by reflexivity.
  unfold reactProcessImage. cbv zeta.
  cbv beta iota delta [bind getDetectionTerm gets ret]. rewrite H.
  match goal with |- context [processImage ?a ?b ?c w1] =>
    destruct (processImage a b c w1) as [[r|e] w2] end; reflexivity.
Qed.

Lemma after_keeps_config (c : Call) (w : World) :
  config_ok w -> config_ok (after c w).
Proof.
  intros [Hterm Hchoice]. destruct c as [m | v | | i a n | i m n]; simpl.
  - split; [reflexivity | exact Hchoice].
  - unfold setPromptChoice, strict_eq_str.
    destruct v as [| | | | s | |]; try (split; assumption).
    destruct (jsstring_dec s (lit "concise")) as [->|_];
      [split; [exact Hterm | left; reflexivity]|].
    destruct (jsstring_dec s (lit "extensive")) as [->|_];
      [split; [exact Hterm | right; reflexivity]|].
    split; assumption.
  - split; assumption.
  - destruct (only_adds_keeps_config w (processImage_any i a n))
      as [Ht [_ [Hc _]]].
    unfold config_ok. rewrite Ht, Hc. split; assumption.
  - rewrite reactProcessImage_world.
    match goal with |- config_ok (snd (processImage ?a ?b ?c ?d)) =>
      destruct (only_adds_keeps_config d (processImage_any a b c))
        as [Ht [_ [Hc _]]] end.
    unfold config_ok. rewrite Ht, Hc. split; [reflexivity | exact Hchoice].
Qed.

(** X1: whatever exported operations are called after the module is
    loaded, in whatever order and with whatever arguments, the detection
    term stays ['component'] and the stored prompt choice stays one of
    ['concise'] and ['extensive']. *)
Theorem config_kept_by_every_call
    (key base : option jsstring) (p : list Event -> Request -> FetchOutcome)
    (calls : list Call) :
  config_ok (after_all calls (module_loaded key base p)).
Proof.
  unfold after_all.
  assert (H0 : config_ok (module_loaded key base p))
    by (split; [reflexivity | left; reflexivity]).
  revert H0. generalize (module_loaded key base p).
  induction calls as [|c cs IH]; intros w Hw; simpl; [exact Hw|].
  apply IH. now apply after_keeps_config.
Qed.

(** ** The prompt templates *)

(** X2: [buildSuperPrompt] takes the concise template for ['concise'] and
    for an omitted size, and the extensive template for every other value
    of [promptSize], which it does not validate; on the same inputs the two
    templates never give the same prompt. *)
Theorem buildSuperPrompt_template_choice
    (main : jsstring) (regions : list jsstring) (act : jsstring)
    (size : value) (w : World) :
  (size = VUndefined \/ size = VStr (lit "concise") ->
   buildSuperPrompt main regions act size w
   = (Ok (concise_template (DETECTION_TERM w)
            (regionSpecs (DETECTION_TERM w) regions) (layoutSection main) act),
      w))
  /\ (size <> VUndefined -> size <> VStr (lit "concise") ->
      buildSuperPrompt main regions act size w
      = (Ok (extensive_template (DETECTION_TERM w)
               (regionSpecs (DETECTION_TERM w) regions) (layoutSection main)
               act), w))
  /\ fst (buildSuperPrompt main regions act (VStr (lit "concise")) w)
     <> fst (buildSuperPrompt main regions act (VStr (lit "extensive")) w).
Proof.
  split; [|split].
  - intros [-> | ->]; reflexivity.
  - intros Hu Hc. unfold buildSuperPrompt, strict_eq_str.
    destruct size as [| | | | s | |]; try reflexivity; [contradiction|].
    destruct (jsstring_dec s (lit "concise")) as [->|_];
      [contradiction | reflexivity].
  - change (@Ok jsstring
              (concise_template (DETECTION_TERM w)
                 (regionSpecs (DETECTION_TERM w) regions)
                 (layoutSection main) act)
            <> Ok (extensive_template (DETECTION_TERM w)
                     (regionSpecs (DETECTION_TERM w) regions)
                     (layoutSection main) act)).
    intros H.
    apply (f_equal (fun r => match r with Ok x => x | Throw _ => [] end)) in H.
    exact (templates_differ H).
Qed.

(** ** Lines *)

Lemma split_never_empty (sep : code_unit) (s : jsstring) : split sep s <> [].
Proof.
  destruct s as [|c r]; simpl; [discriminate|].
  destruct (c =? sep)%N; [discriminate|].
  destruct (split sep r); discriminate.
Qed.

Lemma split_one_line (s : jsstring) : one_line s -> split LF s = [s].
Proof.
  induction s as [|c r IH]; intros H; simpl; [reflexivity|].
  destruct (c =? LF)%N eqn:E.
  - apply N.eqb_eq in E. exfalso. apply H. now left.
  - rewrite IH; [reflexivity|]. intros Hin. apply H. now right.
Qed.

Lemma split_line_break (a r : jsstring) :
  one_line a -> split LF (a ++ LF :: r) = a :: split LF r.
Proof.
  induction a as [|c a IH]; intros H; simpl.
  - reflexivity.
  - destruct (c =? LF)%N eqn:E.
    + apply N.eqb_eq in E. exfalso. apply H. now left.
    + rewrite IH; [reflexivity|]. intros Hin. apply H. now right.
Qed.

Lemma join_cons (sep x : jsstring) (r : list jsstring) :
  join sep (x :: r)
  = x ++ match r with [] => [] | _ :: _ => sep ++ join sep r end.
Proof. destruct r; simpl; [now rewrite app_nil_r | reflexivity]. Qed.

Lemma split_join (l : list jsstring) :
  l <> [] -> Forall one_line l -> split LF (join [LF] l) = l.
Proof.
  induction l as [|x l IH]; intros Hne Hl; [contradiction|].
  inversion Hl as [|? ? Hx Hl']; subst.
  rewrite join_cons. destruct l as [|y l].
  - rewrite app_nil_r. now apply split_one_line.
  - change ([LF] ++ join [LF] (y :: l)) with (LF :: join [LF] (y :: l)).
    rewrite split_line_break by exact Hx.
    rewrite IH; [reflexivity | discriminate | exact Hl'].
Qed.

Lemma one_line_app (a b : jsstring) :
  one_line a -> one_line b -> one_line (a ++ b).
Proof.
  unfold one_line. intros Ha Hb Hin. apply in_app_or in Hin. tauto.
Qed.

Lemma one_line_capitalize (s : jsstring) : one_line s -> one_line (capitalize s).
Proof.
  destruct s as [|c r]; simpl; [auto|].
  unfold one_line. intros H [Hc | Hr]; [|apply H; now right].
  apply H. left. unfold toUpperCase_unit in Hc.
  destruct ((97 <=? c) && (c <=? 122))%N eqn:E; [|exact Hc].
  apply andb_true_iff in E. destruct E as [E1 E2].
  apply N.leb_le in E1. unfold LF in *. lia.
Qed.

Lemma one_line_digits (u : Decimal.uint) : one_line (digits u).
Proof.
  unfold one_line.
  induction u; simpl; intros H; try (destruct H as [H|H]; [discriminate H|]);
    auto.
Qed.

Lemma mapi_from_Forall {A B} (f : A -> nat -> B) (ok : A -> Prop)
    (ok' : B -> Prop) :
  (forall x i, ok x -> ok' (f x i)) ->
  forall l i, Forall ok l -> Forall ok' (mapi_from f i l).
Proof.
  intros Hf l. induction l as [|x l IH]; intros i Hl; simpl; constructor;
    inversion Hl; subst; auto.
Qed.

Lemma mapi_from_length {A B} (f : A -> nat -> B) (l : list A) :
  forall i, length (mapi_from f i l) = length l.
Proof. induction l as [|x l IH]; intros i; simpl; [reflexivity | now rewrite IH]. Qed.

(** X3: when the term and the descriptions have no line break, the region
    section that [buildSuperPrompt] puts into the templates has exactly one
    line a description, in order, the k-th line being the capitalized term,
    the number k counted from 1, a colon and the description. *)
Theorem regionSpecs_numbered_lines
    (term : jsstring) (descriptions : list jsstring) :
  descriptions <> [] -> one_line term -> Forall one_line descriptions ->
  split LF (regionSpecs term descriptions)
  = mapi (fun desc i =>
            capitalize term ++ lit " " ++ string_of_index (i + 1)
            ++ lit ": " ++ desc) descriptions
  /\ length (split LF (regionSpecs term descriptions)) = length descriptions.
Proof.
  intros Hne Hterm Hdescs.
  assert (E : split LF (regionSpecs term descriptions)
              = mapi (fun desc i =>
                        capitalize term ++ lit " " ++ string_of_index (i + 1)
                        ++ lit ": " ++ desc) descriptions).
  { unfold regionSpecs. apply split_join.
    - destruct descriptions; [contradiction | discriminate].
    - unfold mapi. eapply mapi_from_Forall; [|exact Hdescs].
      intros x i Hx. cbv beta.
      repeat apply one_line_app;
        try (apply one_line_capitalize; exact Hterm);
        try apply one_line_digits; try exact Hx;
        intros Hin; vm_compute in Hin; intuition discriminate. }
  split; [exact E|]. rewrite E. apply mapi_from_length.
Qed.

(** ** The text that the synthesizer returns *)

Lemma split_app (sep : code_unit) (a z : jsstring) :
  split sep (a ++ z)
  = removelast (split sep a)
    ++ (last (split sep a) [] ++ hd [] (split sep z)) :: tl (split sep z).
Proof.
  induction a as [|c a IH].
  - simpl. pose proof (split_never_empty sep z) as Hz.
    destruct (split sep z); [contradiction | reflexivity].
  - pose proof (split_never_empty sep a) as Ha.
    change (split sep ((c :: a) ++ z))
      with (if (c =? sep)%N then [] :: split sep (a ++ z)
            else match split sep (a ++ z) with
                 | h :: t => (c :: h) :: t
                 | [] => [[c]]
                 end).
    change (split sep (c :: a))
      with (if (c =? sep)%N then [] :: split sep a
            else match split sep a with
                 | h :: t => (c :: h) :: t
                 | [] => [[c]]
                 end).
    rewrite IH. destruct (c =? sep)%N.
    + destruct (split sep a) as [|h1 t1]; [contradiction|]. reflexivity.
    + destruct (split sep a) as [|h1 [|h2 t1]];
        [contradiction | reflexivity | reflexivity].
Qed.

Lemma split_tail_of_break (sep : code_unit) (z : jsstring) :
  In sep z -> tl (split sep z) <> [].
Proof.
  induction z as [|c z IH]; intros H; [contradiction|]. simpl.
  destruct (c =? sep)%N eqn:E.
  - simpl. apply split_never_empty.
  - destruct H as [H|H]; [subst; rewrite N.eqb_refl in E; discriminate|].
    specialize (IH H). pose proof (split_never_empty sep z) as Hz.
    destruct (split sep z) as [|h t]; [contradiction|]. exact IH.
Qed.

Lemma js_slice_inner {A} (x : A) (l : list A) :
  js_slice 1 (-1) (x :: l) = removelast l.
Proof.
  unfold js_slice.
  replace (1 <? 0)%Z with false by reflexivity.
  replace (-1 <? 0)%Z with true by reflexivity.
  rewrite Z.min_l by (cbn [length]; lia).
  change (Z.to_nat 1) with 1%nat. cbn [skipn].
  rewrite removelast_firstn_len. f_equal. cbn [length]. lia.
Qed.

Lemma removelast_cons {A} (x : A) (l : list A) :
  l <> [] -> removelast (x :: l) = x :: removelast l.
Proof. destruct l; [contradiction | reflexivity]. Qed.

Lemma trimEnd_cons (c : code_unit) (s : jsstring) :
  is_whitespace c = false -> trimEnd (c :: s) = c :: trimEnd s.
Proof.
  intros Hc. unfold trimEnd. cbn [fold_right].
  destruct (fold_right _ [] s); [now rewrite Hc | reflexivity].
Qed.

Lemma trimEnd_cons_kept (c : code_unit) (s : jsstring) :
  trimEnd s <> [] -> trimEnd (c :: s) = c :: trimEnd s.
Proof.
  intros Hs. unfold trimEnd in *. cbn [fold_right].
  destruct (fold_right _ [] s); [contradiction | reflexivity].
Qed.

Lemma trimEnd_keeps_prefix (q : jsstring) (c : code_unit) (r : jsstring) :
  is_whitespace c = false -> trimEnd (q ++ c :: r) = q ++ c :: trimEnd r.
Proof.
  intros Hc. induction q as [|x q IH].
  - now apply trimEnd_cons.
  - rewrite <- !app_comm_cons.
    rewrite trimEnd_cons_kept; [now rewrite IH|].
    rewrite IH. destruct q; discriminate.
Qed.

Lemma concise_template_opening (term specs layout act : jsstring) :
  exists rest,
    concise_template term specs layout act
    = concise_opening term ++ specs ++ rest
    /\ In LF rest.
Proof.
  unfold concise_template, concise_opening. eexists. split.
  - rewrite <- !app_assoc. reflexivity.
  - apply in_or_app. left. vm_compute. left. reflexivity.
Qed.

(** The cleaned concise prompt starts the same way whatever it is given. *)
Lemma cleanedPrompt_concise_start (c : jsstring) (cs : list jsstring)
    (layout act : jsstring) :
  starts_with (lit "[Component Analysis]
    Component 1:")
    (cleanedPrompt
       (concise_template (lit "component")
          (regionSpecs (lit "component") (c :: cs)) layout act)).
Proof.
  destruct (concise_template_opening (lit "component")
              (regionSpecs (lit "component") (c :: cs)) layout act)
    as [rest [-> Hrest]].
  unfold regionSpecs, mapi. cbn [mapi_from]. rewrite join_cons.
  match goal with
  | |- context [match ?m with [] => [] | _ :: _ => ?y end] =>
    set (more := match m with [] => [] | _ :: _ => y end)
  end.
  set (A := concise_opening (lit "component")
            ++ capitalize (lit "component") ++ lit " "
            ++ string_of_index (0 + 1) ++ lit ": ").
  set (Z := c ++ more ++ rest).
  match goal with |- starts_with _ (cleanedPrompt ?t) =>
    replace t with (A ++ Z)
      by (unfold A, Z; rewrite <- !app_assoc; reflexivity) end.
  assert (HZ : In LF Z).
  { unfold Z. apply in_or_app. right. apply in_or_app. now right. }
  unfold cleanedPrompt. rewrite split_app.
  assert (HA1 : removelast (split LF A)
                = [hd [] (split LF A); []; lit "    [Component Analysis]"])
    by (vm_compute; reflexivity).
  assert (HA2 : last (split LF A) [] = lit "    Component 1: ")
    by (vm_compute; reflexivity).
  rewrite HA1, HA2. clear HA1 HA2.
  pose proof (split_tail_of_break LF Z HZ) as Ht.
  set (h := hd [] (split LF Z)) in *. set (t := tl (split LF Z)) in *.
  cbn [Datatypes.app]. rewrite js_slice_inner.
  rewrite !removelast_cons by discriminate.
  rewrite removelast_cons by exact Ht.
  cbn [filter]. change (trim []) with (@nil code_unit). cbv iota.
  change (match trim (lit "    [Component Analysis]") with
          | [] => false
          | _ :: _ => true
          end) with true. cbv iota.
  change (trim (lit "    Component 1: " ++ h))
    with (trimEnd (67%N :: lit "omponent 1: " ++ h)).
  rewrite trimEnd_cons by reflexivity. cbv iota.
  rewrite !join_cons.
  match goal with
  | |- context [match ?m with [] => [] | _ :: _ => ?y end] =>
    set (tail := match m with [] => [] | _ :: _ => y end)
  end.
  unfold trim.
  change (trimStart (lit "    [Component Analysis]"
                     ++ [LF] ++ (lit "    Component 1: " ++ h) ++ tail))
    with ((lit "[Component Analysis]
    Component 1") ++ 58%N :: (32%N :: h ++ tail)).
  rewrite trimEnd_keeps_prefix by reflexivity.
  generalize (trimEnd (32%N :: h ++ tail)). intros R.
  exists R. reflexivity.
Qed.

Lemma callSuperPrompt_component_response
    (main c : jsstring) (cs : list jsstring) (act : jsstring) (w : World) :
  DETECTION_TERM w = lit "component" ->
  callSuperPrompt main (c :: cs) act w
  = (Ok mock_response,
     snd (emit (Enter_callSuperPrompt main (c :: cs) act) w)).
Proof.
  intros Hterm. rewrite callSuperPrompt_unfold, Hterm.
  rewrite substring0_finalPrompt.
  destruct (cleanedPrompt_concise_start c cs (layoutSection main) act)
    as [rest ->].
  rewrite firstn_app. reflexivity.
Qed.

(** X4: with the detection term ['component'] and at least one component
    caption, [callSuperPrompt] returns one and the same text whatever the
    design summary, the captions and the activity description are: the 50
    code units of the prompt that the mock response shows end inside the
    first numbered heading. *)
Theorem callSuperPrompt_constant_response
    (main c : jsstring) (cs : list jsstring) (act : jsstring) (w : World) :
  DETECTION_TERM w = lit "component" ->
  fst (callSuperPrompt main (c :: cs) act w) = Ok mock_response.
Proof.
  intros Hterm. now rewrite callSuperPrompt_component_response.
Qed.

(** ** The Gateway *)

Lemma trimStart_head (s : jsstring) :
  match trimStart s with
  | [] => True
  | c :: _ => is_whitespace c = false
  end.
Proof.
  induction s as [|c s IH]; simpl; [exact I|].
  destruct (is_whitespace c) eqn:E; [exact IH | exact E].
Qed.

Lemma trimEnd_last (s : jsstring) :
  forall c r d, trimEnd s = c :: r -> is_whitespace (last (c :: r) d) = false.
Proof.
  induction s as [|a s IH]; intros c r d; [discriminate|].
  unfold trimEnd in *. cbn [fold_right].
  destruct (fold_right _ [] s) as [|x y] eqn:E.
  - destruct (is_whitespace a) eqn:Ea; [discriminate|].
    intros H; inversion H; subst. exact Ea.
  - intros H; inversion H; subst.
    change (last (c :: x :: y) d) with (last (x :: y) d).
    now apply IH.
Qed.

Lemma trim_trimmed (s : jsstring) : trimmed (trim s).
Proof.
  unfold trim. pose proof (trimStart_head s) as Hh.
  destruct (trimStart s) as [|c r]; [exact I|].
  rewrite trimEnd_cons by exact Hh. split; [exact Hh|].
  apply (trimEnd_last (c :: r)). now apply trimEnd_cons.
Qed.

Lemma callVisionAPI_without_key image sys usr temp json mdl (w : World) :
  openai_api_key w = None \/ openai_api_key w = Some [] ->
  exists e,
    callVisionAPI image sys usr temp json mdl w = (Throw e, w)
    /\ ((exists b, imageToBase64 image = Ok b) -> e = key_error).
Proof.
  intros Hkey.
  cbv beta iota zeta
      delta [callVisionAPI try_catch bind lift gets fetch emit ret throw].
  destruct (imageToBase64 image) as [b64|e0].
  - exists key_error. split; [|reflexivity].
    destruct Hkey as [-> | ->]; reflexivity.
  - exists e0. split; [reflexivity|]. intros [b Hb]; discriminate.
Qed.

Lemma callVisionAPI_ready image sys usr temp json mdl (w : World) :
  ready image w ->
  exists req,
    snd (callVisionAPI image sys usr temp json mdl w)
    = with_trace w (trace w ++ [Fetch req])
    /\ openai_api_key w = Some (bearer req)
    /\ system req = sys /\ user req = usr
    /\ fst (callVisionAPI image sys usr temp json mdl w)
       = match provider w (trace w) req with
         | Rejected e => Throw e
         | NotOk message => Throw (Error (lit "API response error: " ++ message))
         | Reply content => Ok (trim content)
         end.
Proof.
  intros [[b Hb] [c [k Hk]]].
  set (req := {| url := (match openai_base_url w with
                         | Some (c0 :: r) => c0 :: r
                         | _ => lit "https://api.openai.com/v1"
                         end) ++ lit "/chat/completions";
                 bearer := c :: k;
                 model := mdl;
                 system := sys;
                 user := usr;
                 image_base64 := b;
                 max_tokens := 1024;
                 temperature := temp;
                 json_object := json |}).
  assert (E : callVisionAPI image sys usr temp json mdl w
              = (match provider w (trace w) req with
                 | Rejected e => Throw e
                 | NotOk message =>
                   Throw (Error (lit "API response error: " ++ message))
                 | Reply content => Ok (trim content)
                 end, with_trace w (trace w ++ [Fetch req]))).
  { cbv beta iota zeta
        delta [callVisionAPI try_catch bind lift gets fetch emit ret throw].
    rewrite Hb, Hk. cbv beta iota.
    match goal with |- context [provider w (trace w) ?r] =>
      change r with req end.
    destruct (provider w (trace w) req); reflexivity. }
  exists req. rewrite E. cbn [fst snd].
  repeat split. exact Hk.
Qed.

Lemma callVisionAPI_ok_ready image sys usr temp json mdl (w w' : World) raw :
  callVisionAPI image sys usr temp json mdl w = (Ok raw, w') -> ready image w.
Proof.
  cbv beta iota zeta
      delta [callVisionAPI try_catch bind lift gets fetch emit ret throw ready].
  destruct (imageToBase64 image) as [b64|e]; [|discriminate].
  destruct (openai_api_key w) as [[|c k]|]; try discriminate.
  intros _. split; [now exists b64 | now exists c, k].
Qed.

(** X5: [initializeClients] and [callVisionAPI] agree on the stored key.
    For an image that can be encoded: when [hasValidKey] is false,
    [callVisionAPI] throws the key-not-set error and leaves the world as it
    was, no request being sent; when it is true, [callVisionAPI] sends
    exactly one request, with that key as bearer and the prompts it was
    given, and returns the trimmed content of the reply or throws by the
    provider's failure. *)
Theorem callVisionAPI_key_gate image sys usr temp json mdl (w : World) b :
  imageToBase64 image = Ok b ->
  exists clients,
    initializeClients w = (Ok clients, w)
    /\ (hasValidKey clients = false ->
        callVisionAPI image sys usr temp json mdl w = (Throw key_error, w))
    /\ (hasValidKey clients = true ->
        exists req,
          bearer req = apiKey clients
          /\ system req = sys /\ user req = usr
          /\ snd (callVisionAPI image sys usr temp json mdl w)
             = with_trace w (trace w ++ [Fetch req])
          /\ fst (callVisionAPI image sys usr temp json mdl w)
             = match provider w (trace w) req with
               | Rejected e => Throw e
               | NotOk message =>
                 Throw (Error (lit "API response error: " ++ message))
               | Reply content => Ok (trim content)
               end).
Proof.
  intros Hb. eexists. split; [reflexivity|]. cbn [hasValidKey apiKey].
  split.
  - intros Hvalid.
    destruct (@callVisionAPI_without_key image sys usr temp json mdl w)
      as [e [He Hkey]].
    + destruct (openai_api_key w) as [[|c k]|]; try discriminate; auto.
    + rewrite He. rewrite Hkey; [reflexivity | now exists b].
  - intros Hvalid.
    destruct (@callVisionAPI_ready image sys usr temp json mdl w)
      as [req [Hw [Hkey [Hs [Hu Hr]]]]].
    + split; [now exists b|].
      destruct (openai_api_key w) as [[|c k]|]; try discriminate.
      now exists c, k.
    + exists req. rewrite Hkey. repeat split; assumption.
Qed.

(** X6: the text that [callVisionAPI] returns neither starts nor ends with
    white space. *)
Theorem callVisionAPI_result_trimmed image sys usr temp json mdl
    (w w' : World) (raw : jsstring) :
  callVisionAPI image sys usr temp json mdl w = (Ok raw, w') -> trimmed raw.
Proof.
  intros H. destruct (callVisionAPI_returns_trimmed _ _ _ _ _ _ _ H)
    as [req [content [_ ->]]].
  apply trim_trimmed.
Qed.

(** ** The detections *)

Lemma truthy_or_else (a b : value) : truthy b = true -> truthy (or_else a b) = true.
Proof. intros Hb. unfold or_else. destruct (truthy a) eqn:E; assumption. Qed.

Lemma toDetection_shape term item index d :
  toDetection term item index = Ok d ->
  isArray (bbox d) = true /\ truthy (type d) = true /\ truthy (text d) = true
  /\ (isArray (member item "bbox") = false ->
      exists x y width height, bbox d = VArr [x; y; width; height]).
Proof.
  intros H.
  assert (Hu : item <> VUndefined) by (intros ->; discriminate H).
  assert (Hn : item <> VNull) by (intros ->; discriminate H).
  rewrite (toDetection_closed_form term index Hu Hn) in H.
  inversion H; subst; clear H. cbn [bbox type text].
  split; [|split; [|split]].
  - unfold bbox_of. destruct (isArray (member item "bbox")) eqn:E; [exact E|].
    destruct (truthy (member item "box")); reflexivity.
  - apply truthy_or_else. reflexivity.
  - apply truthy_or_else, truthy_or_else. destruct term; reflexivity.
  - intros E. unfold bbox_of. rewrite E.
    destruct (truthy (member item "box")); eauto.
Qed.

Lemma map_result_Forall {A B} (f : A -> nat -> result B) (ok : B -> Prop) :
  (forall x i y, f x i = Ok y -> ok y) ->
  forall l i ys, map_result f i l = Ok ys -> Forall ok ys.
Proof.
  intros Hf l. induction l as [|x l IH]; intros i ys; simpl.
  - intros H; inversion H; constructor.
  - unfold rbind. destruct (f x i) as [y|] eqn:E; [|discriminate].
    destruct (map_result f (S i) l) as [ys'|] eqn:E'; [|discriminate].
    intros H; inversion H; subst. constructor; eauto.
Qed.

Lemma detections_of_reply_Forall term cap response ds (ok : UIDetection -> Prop) :
  (forall item i d, toDetection term item i = Ok d -> ok d) ->
  detections_of_reply term cap response = Ok ds -> Forall ok ds.
Proof.
  intros Hok. unfold detections_of_reply, rbind.
  destruct (JSON_parse response) as [parsed|]; [|discriminate].
  destruct (get_prop parsed (lit "components")) as [components|]; [|discriminate].
  destruct (length_truthy (or_else components (VArr []))) as [[|]|];
    [| intros H; inversion H; constructor | discriminate].
  simpl negb. cbv iota.
  destruct (or_else components (VArr [])); try discriminate.
  apply map_result_Forall. exact Hok.
Qed.

(** X7: every detection that [getComponents] returns has an array as
    [bbox] and a truthy [type] and [text], whatever the reply held. *)
Theorem getComponents_detections_well_formed
    (method : DetectionMethod) (image : Image) (cap : option Z)
    (w w' : World) (ds : list UIDetection) :
  getComponents (createDetector method image cap) w = (Ok ds, w') ->
  Forall (fun d => isArray (bbox d) = true
                   /\ truthy (type d) = true /\ truthy (text d) = true) ds.
Proof.
  rewrite getComponents_unfold. cbv zeta.
  match goal with |- context [detector_reply ?a ?b ?c] =>
    destruct (detector_reply a b c) as [[response|e] w1] end.
  - match goal with |- context [detections_of_reply ?a ?b ?c] =>
      destruct (detections_of_reply a b c) as [ds'|e] eqn:E end;
      intros H; inversion H; subst; [|constructor].
    eapply detections_of_reply_Forall; [|exact E].
    intros item i d Hd. destruct (toDetection_shape _ _ _ Hd) as [? [? [? _]]].
    auto.
  - intros H; inversion H; constructor.
Qed.

Lemma map_result_throws {A B} (f : A -> nat -> result B) (x : A) :
  (forall i, exists e, f x i = Throw e) ->
  forall l i, In x l -> exists e, map_result f i l = Throw e.
Proof.
  intros Hx l. induction l as [|y l IH]; intros i Hin; [contradiction|].
  simpl. unfold rbind. destruct (f y i) as [fy|e] eqn:E; [|now exists e].
  destruct Hin as [-> | Hin].
  - destruct (Hx i) as [e He]. congruence.
  - destruct (IH (S i) Hin) as [e He]. rewrite He. now exists e.
Qed.

(** X8: one [null] among the items that the cap keeps makes
    [getComponents] return no detection at all: the TypeError of reading
    its [bbox] ends the whole conversion. *)
Theorem getComponents_null_item_discards_all
    (method : DetectionMethod) (image : Image) (cap : Z) (w w' : World)
    (response : jsstring) (fields : list (jsstring * value))
    (items : list value) :
  (0 <= cap)%Z ->
  detector_reply image cap w = (Ok response, w') ->
  JSON_parse response = Some (VObj fields) ->
  lookup (lit "components") fields = Some (VArr items) ->
  In VNull (firstn (Z.to_nat cap) items) ->
  getComponents (createDetector method image (Some cap)) w = (Ok [], w').
Proof.
  intros Hcap Hreply Hparse Hcomp Hnull.
  rewrite getComponents_unfold. cbv zeta. rewrite Hreply.
  unfold detections_of_reply. rewrite Hparse.
  unfold get_prop. rewrite Hcomp.
  cbv beta iota delta [rbind or_else truthy].
  destruct items as [|x a]; [reflexivity|].
  change (length_truthy (VArr (x :: a))) with (@Ok bool true).
  cbv beta iota delta [negb].
  rewrite js_slice_from_0 by exact Hcap.
  destruct (@map_result_throws _ _ (toDetection (DETECTION_TERM w)) VNull)
    with (l := firstn (Z.to_nat cap) (x :: a)) (i := 0%nat) as [e He].
  - intros i. exists TypeError. reflexivity.
  - exact Hnull.
  - rewrite He. reflexivity.
Qed.

Lemma Forall_suffix {A} (ok : A -> Prop) (n : nat) (l : list A) :
  Forall ok l -> Forall ok (skipn n l).
Proof.
  revert l. induction n as [|n IH]; intros l H; [exact H|].
  destruct H as [|x l Hx Hl]; simpl; [constructor | now apply IH].
Qed.

Lemma js_slice_negative_stop {A} (cap : Z) (a : list A) :
  (cap < 0)%Z ->
  js_slice 0 cap a = firstn (Z.to_nat (Z.of_nat (length a) + cap)) a.
Proof.
  intros Hcap. unfold js_slice.
  replace (0 <? 0)%Z with false by reflexivity.
  destruct (cap <? 0)%Z eqn:E; [|apply Z.ltb_ge in E; lia].
  rewrite (Z.min_l 0) by lia. cbn [Z.to_nat skipn]. rewrite Z.sub_0_r.
  f_equal. lia.
Qed.

(** X9: a negative cap is not refused: instead of capping their number it
    drops that many items from the end of a well-formed reply.  With [n]
    items and the cap [-m], the detections are those of the first [n - m]
    items (none when [m >= n]), in order, each converted by the callback at
    its position. *)
Theorem getComponents_negative_cap
    (method : DetectionMethod) (image : Image) (cap : Z) (w w' : World)
    (response : jsstring) (fields : list (jsstring * value))
    (x : value) (a : list value) :
  (cap < 0)%Z ->
  detector_reply image cap w = (Ok response, w') ->
  JSON_parse response = Some (VObj fields) ->
  lookup (lit "components") fields = Some (VArr (x :: a)) ->
  Forall is_object (x :: a) ->
  exists ds,
    getComponents (createDetector method image (Some cap)) w = (Ok ds, w')
    /\ length ds = Z.to_nat (Z.of_nat (length (x :: a)) + cap)
    /\ forall k item,
         nth_error
           (firstn (Z.to_nat (Z.of_nat (length (x :: a)) + cap)) (x :: a)) k
         = Some item ->
         exists d, nth_error ds k = Some d
                   /\ toDetection (DETECTION_TERM w) item k = Ok d.
Proof.
  intros Hcap Hreply Hparse Hcomp Hobj.
  rewrite getComponents_unfold. cbv zeta. rewrite Hreply.
  unfold detections_of_reply. rewrite Hparse.
  unfold get_prop. rewrite Hcomp.
  cbv beta iota delta [rbind or_else truthy].
  change (length_truthy (VArr (x :: a))) with (@Ok bool true).
  cbv beta iota delta [negb].
  destruct (@map_result_total _ _ (toDetection (DETECTION_TERM w)) is_object)
    with (l := js_slice 0 cap (x :: a)) (i := 0%nat) as [ds Hds].
  - intros [] i Hv; try contradiction. apply toDetection_object_total.
  - unfold js_slice. apply Forall_prefix, Forall_suffix. exact Hobj.
  - rewrite Hds. exists ds. split; [reflexivity|]. split.
    + rewrite (map_result_length _ _ _ Hds).
      rewrite js_slice_negative_stop by exact Hcap.
      rewrite length_firstn. lia.
    + intros k item Hk. rewrite <- js_slice_negative_stop in Hk by exact Hcap.
      exact (map_result_nth _ _ _ Hds k Hk).
Qed.

(** ** Runs that do not complete *)

Lemma getComponents_gateway_failure method image cap (w w' : World) e :
  detector_reply image
    (match cap with Some n => n | None => MAX_UI_COMPONENTS end) w
  = (Throw e, w') ->
  getComponents (createDetector method image cap) w = (Ok [], w').
Proof. intros H. rewrite getComponents_unfold. cbv zeta. now rewrite H. Qed.

(** X10: without a stored API key (none, or the empty string)
    [processImage] sends no request and runs no stage after the detector:
    the refusal of the Gateway is reported as the no-detections result. *)
Theorem processImage_without_key
    (image : Image) (minArea : value) (maxDetections : option Z) (w : World) :
  openai_api_key w = None \/ openai_api_key w = Some [] ->
  processImage image minArea maxDetections w
  = (Ok {| mainDesign := lit "No " ++ DETECTION_TERM w ++ lit "s detected.";
           componentAnalyses := [];
           finalAnalysis := lit "Error during analysis" |},
     with_trace w (trace w ++ [Enter_getComponents])).
Proof.
  intros Hkey.
  set (cap := match maxDetections with
              | Some n => n
              | None => MAX_UI_COMPONENTS
              end).
  assert (Hdet : getComponents
                   (createDetector (DETECTION_METHOD w) image (Some cap)) w
                 = (Ok [], with_trace w (trace w ++ [Enter_getComponents]))).
  { unfold detector_reply.
    match goal with |- context [createDetector ?m ?i ?c] =>
      destruct (@callVisionAPI_without_key image
                  (SystemText (lit "As a UI analysis expert, identify "
                               ++ DETECTION_TERM w
                               ++ lit "s in the interface."))
                  (DetectionPrompt cap) (2 # 10)%Q true gpt_4o
                  (snd (emit Enter_getComponents w)))
        as [e [He _]]; [exact Hkey|] end.
    eapply getComponents_gateway_failure. unfold detector_reply.
    exact He. }
  unfold processImage, processImage_try, try_catch, bind, getSplittingMode,
    getDetectionTerm, gets, ret.
  fold cap. rewrite Hdet. reflexivity.
Qed.

Lemma analyzeMainDesignChoices_never_throws image temp (w : World) :
  exists m, fst (analyzeMainDesignChoices image temp w) = Ok m.
Proof.
  unfold analyzeMainDesignChoices, bind, try_catch, emit, ret. cbv zeta.
  cbv beta iota.
  match goal with |- context [callVisionAPI ?a ?b ?c ?d ?e ?f ?g] =>
    destruct (callVisionAPI a b c d e f g) as [[m|e0] w'] end;
    eexists; reflexivity.
Qed.

(** X11: when the detector found something but the Gateway call of
    [describeActivity] fails, the whole run ends in the error result: the
    detections and the design analysis are dropped, and neither the
    Component Analyzer nor the Prompt Synthesizer is invoked. *)
Theorem processImage_activity_failure_aborts
    (image : Image) (minArea : value) (maxDetections : option Z)
    (w w1 w3 : World) (detections : list UIDetection) (e : exn) :
  getComponents
    (createDetector (DETECTION_METHOD w) image
       (Some (match maxDetections with
              | Some n => n
              | None => MAX_UI_COMPONENTS
              end))) w
  = (Ok detections, w1) ->
  detections <> [] ->
  describeActivity image (snd (analyzeMainDesignChoices image None w1))
  = (Throw e, w3) ->
  processImage image minArea maxDetections w = (Ok error_result, w3)
  /\ analyzer_calls (trace w3) = analyzer_calls (trace w)
  /\ synthesizer_calls (trace w3) = synthesizer_calls (trace w).
Proof.
  intros Hdet Hne Hact.
  destruct (@quiet_step _ _ _ _ _ (getComponents_quiet _ _ _) Hdet)
    as [_ [Ha1 Hs1]].
  destruct (analyzeMainDesignChoices_never_throws image None w1) as [m Hm].
  destruct (analyzeMainDesignChoices image None w1) as [r2 w2] eqn:E2.
  cbn [fst snd] in *. subst r2.
  destruct (@quiet_step _ _ _ _ _ (analyzeMainDesignChoices_quiet _ _) E2)
    as [_ [Ha2 Hs2]].
  destruct (@quiet_step _ _ _ _ _ (describeActivity_quiet _) Hact)
    as [_ [Ha3 Hs3]].
  split; [|split; congruence].
  unfold processImage, processImage_try, try_catch, bind, getSplittingMode,
    gets, ret.
  rewrite Hdet. destruct detections as [|d ds]; [contradiction|].
  rewrite E2, Hact. reflexivity.
Qed.

Lemma analyzeDetection_entry image index location (w w' : World) r :
  analyzeDetection image index location w = (r, w') ->
  analyzer_calls (trace w')
  = analyzer_calls (trace w) ++ [(index, location)]
  /\ synthesizer_calls (trace w') = synthesizer_calls (trace w).
Proof.
  rewrite analyzeDetection_unfold.
  destruct (ToString location) as [label|e1].
  - match goal with |- context [callVisionAPI ?a ?b ?c ?d ?e ?f ?g] =>
      destruct (callVisionAPI a b c d e f g) as [r0 w2] eqn:E end.
    destruct (@quiet_step _ _ _ _ _ (callVisionAPI_quiet _ _ _ _ _ _) E)
      as [_ [Ha Hs]].
    intros H. assert (w' = w2) by (destruct r0; inversion H; reflexivity).
    subst w'. rewrite Ha, Hs. simpl.
    rewrite analyzer_calls_app, synthesizer_calls_app. simpl.
    now rewrite app_nil_r.
  - intros H; inversion H; subst. simpl.
    rewrite analyzer_calls_app, synthesizer_calls_app. simpl.
    now rewrite app_nil_r.
Qed.

Lemma analyze_each_stops_at_failure image (detections : list UIDetection) :
  forall i acc (w w' : World) e,
    analyze_each image detections i acc w = (Throw e, w') ->
    exists k d done wk,
      nth_error detections k = Some d
      /\ analyze_each image (firstn k detections) i acc w = (Ok done, wk)
      /\ analyzeDetection image (i + k) (text d) wk = (Throw e, w')
      /\ analyzer_calls (trace w')
         = analyzer_calls (trace w)
           ++ mapi_from (fun d j => (j, text d)) i (firstn (S k) detections)
      /\ synthesizer_calls (trace w') = synthesizer_calls (trace w).
Proof.
  induction detections as [|d ds IH]; intros i acc w w' e; simpl.
  - discriminate.
  - unfold bind.
    destruct (analyzeDetection image i (text d) w) as [[s|e0] w1] eqn:E;
      destruct (analyzeDetection_entry _ _ _ _ E) as [Ha Hs].
    + intros H.
      destruct (IH _ _ _ _ _ H) as [k [d' [done [wk [Hn [Hd [Hf [Ha' Hs']]]]]]]].
      exists (S k), d', done, wk.
      split; [exact Hn|]. split.
      { cbn [firstn analyze_each]. unfold bind. rewrite E. exact Hd. }
      split; [now rewrite Nat.add_succ_r|].
      split; [|congruence].
      rewrite Ha', Ha, <- app_assoc. reflexivity.
    + intros H. apply failed_eq in H. destruct H as [<- <-].
      exists 0%nat, d, acc, w.
      split; [reflexivity|]. split; [reflexivity|].
      split; [now rewrite Nat.add_0_r|].
      split; [|exact Hs]. rewrite Ha. destruct ds; reflexivity.
Qed.

(** X12: when one component analysis fails (its Gateway call, or before it
    the conversion of its label), the whole run ends in the error result,
    the analyses already made being dropped.  The failing analysis is that
    of some detection [k]: the analyses of the [k] detections before it
    completed, its own threw the exception that ended the loop, the
    Component Analyzer was entered for the detections 0 to [k] and for no
    later one, and the Prompt Synthesizer was not invoked. *)
Theorem processImage_analysis_failure_aborts
    (image : Image) (minArea : value) (maxDetections : option Z)
    (w w1 w3 w4 : World) (detections : list UIDetection)
    (activity : jsstring) (e : exn) :
  getComponents
    (createDetector (DETECTION_METHOD w) image
       (Some (match maxDetections with
              | Some n => n
              | None => MAX_UI_COMPONENTS
              end))) w
  = (Ok detections, w1) ->
  describeActivity image (snd (analyzeMainDesignChoices image None w1))
  = (Ok activity, w3) ->
  analyze_each image detections 0 [] w3 = (Throw e, w4) ->
  processImage image minArea maxDetections w = (Ok error_result, w4)
  /\ synthesizer_calls (trace w4) = synthesizer_calls (trace w)
  /\ exists k d done wk,
       nth_error detections k = Some d
       /\ analyze_each image (firstn k detections) 0 [] w3 = (Ok done, wk)
       /\ length done = k
       /\ analyzeDetection image k (text d) wk = (Throw e, w4)
       /\ analyzer_calls (trace w4)
          = analyzer_calls (trace w)
            ++ mapi (fun d j => (j, text d)) (firstn (S k) detections).
Proof.
  intros Hdet Hact Heach.
  destruct (@quiet_step _ _ _ _ _ (getComponents_quiet _ _ _) Hdet)
    as [_ [Ha1 Hs1]].
  destruct (analyzeMainDesignChoices_never_throws image None w1) as [m Hm].
  destruct (analyzeMainDesignChoices image None w1) as [r2 w2] eqn:E2.
  cbn [fst snd] in *. subst r2.
  destruct (@quiet_step _ _ _ _ _ (analyzeMainDesignChoices_quiet _ _) E2)
    as [_ [Ha2 Hs2]].
  destruct (@quiet_step _ _ _ _ _ (describeActivity_quiet _) Hact)
    as [_ [Ha3 Hs3]].
  destruct (analyze_each_stops_at_failure _ _ _ _ _ Heach)
    as [k [d [done [wk [Hn [Hd [Hf [Ha4 Hs4]]]]]]]].
  split; [|split; [congruence|]].
  - unfold processImage, processImage_try, try_catch, bind, getSplittingMode,
      gets, ret.
    rewrite Hdet. destruct detections as [|d0 ds]; [destruct k; discriminate|].
    rewrite E2, Hact, Heach. reflexivity.
  - exists k, d, done, wk. split; [exact Hn|]. split; [exact Hd|].
    split.
    { destruct (analyze_each_spec _ _ _ _ _ Hd) as [ss [-> [HF _]]].
      cbn [Datatypes.app]. rewrite <- (Forall2_length HF).
      apply firstn_length_le. apply Nat.lt_le_incl.
      apply nth_error_Some. rewrite Hn. discriminate. }
    split; [exact Hf|]. unfold mapi.
    rewrite Ha4, Ha3, Ha2, Ha1. reflexivity.
Qed.

(** X17: a detection label that cannot be converted to a string ends the
    run.  When the [text] of the first detection is an object with a key
    [toString] of its own, the run ends in the error result although every
    Gateway call succeeded: the Component Analyzer is entered once, throws
    the TypeError of the conversion before it sends a request, and nothing
    comes after it. *)
Theorem processImage_label_not_convertible
    (image : Image) (minArea : value) (maxDetections : option Z)
    (w w1 w3 : World) (d : UIDetection) (ds : list UIDetection)
    (fields : list (jsstring * value)) (v : value) (activity : jsstring) :
  getComponents
    (createDetector (DETECTION_METHOD w) image
       (Some (match maxDetections with
              | Some n => n
              | None => MAX_UI_COMPONENTS
              end))) w
  = (Ok (d :: ds), w1) ->
  text d = VObj fields ->
  lookup (lit "toString") fields = Some v ->
  describeActivity image (snd (analyzeMainDesignChoices image None w1))
  = (Ok activity, w3) ->
  analyzeDetection image 0 (text d) w3
  = (Throw TypeError,
     with_trace w3 (trace w3 ++ [Enter_analyzeDetection 0 (text d)]))
  /\ processImage image minArea maxDetections w
     = (Ok error_result,
        with_trace w3 (trace w3 ++ [Enter_analyzeDetection 0 (text d)])).
Proof.
  intros Hdet Htext Hkey Hact.
  assert (Hfail : analyzeDetection image 0 (text d) w3
                  = (Throw TypeError,
                     with_trace w3
                       (trace w3 ++ [Enter_analyzeDetection 0 (text d)]))).
  { rewrite analyzeDetection_unfold, Htext. cbn [ToString].
    rewrite Hkey. reflexivity. }
  split; [exact Hfail|].
  destruct (analyzeMainDesignChoices_never_throws image None w1) as [m Hm].
  destruct (analyzeMainDesignChoices image None w1) as [r2 w2] eqn:E2.
  cbn [fst snd] in *. subst r2.
  unfold processImage, processImage_try, try_catch, bind, getSplittingMode,
    gets, ret.
  rewrite Hdet, E2, Hact. cbn [analyze_each]. unfold bind.
  rewrite Hfail. reflexivity.
Qed.

(** ** What a run returns and what it leaves in the history *)

Lemma processImage_two_outcomes_shared
    (image : Image) (minArea : value) (maxDetections : option Z) (w : World) :
  DETECTION_TERM w = lit "component" ->
  exists r w',
    processImage image minArea maxDetections w = (Ok r, w')
    /\ ((componentAnalyses r = []
         /\ finalAnalysis r = lit "Error during analysis")
        \/ (componentAnalyses r <> [] /\ finalAnalysis r = mock_response)).
Proof.
  intros Hterm.
  unfold processImage, try_catch.
  destruct (processImage_try image minArea maxDetections w) as [[r|e] w'] eqn:E;
    [|exists error_result, w'; split; [reflexivity | left; split; reflexivity]].
  exists r, w'. split; [reflexivity|].
  revert E. unfold processImage_try, bind, getSplittingMode, getDetectionTerm,
    gets, ret. cbv zeta.
  match goal with |- context [getComponents ?d w] =>
    destruct (getComponents d w) as [[dets|e] w1] eqn:E1 end; [|discriminate].
  destruct dets as [|d ds].
  { intros H. apply returned_eq in H. destruct H as [<- <-].
    left. split; reflexivity. }
  destruct (analyzeMainDesignChoices image None w1) as [[main|e] w2] eqn:E2;
    [|discriminate].
  destruct (describeActivity image w2) as [[act|e] w3] eqn:E3; [|discriminate].
  destruct (analyze_each image (d :: ds) 0 [] w3) as [[res|e] w4] eqn:E4;
    [|discriminate].
  destruct (analyze_each_spec _ _ _ _ _ E4) as [ss [-> [HF _]]].
  inversion HF as [|? s ? ss' _ _]; subst. cbn [Datatypes.app].
  assert (Hterm4 : DETECTION_TERM w4 = lit "component").
  { destruct (only_adds_keeps_config w (getComponents_quiet
               (DETECTION_METHOD w) image
               (Some (match maxDetections with
                      | Some n => n
                      | None => MAX_UI_COMPONENTS
                      end)))) as [H1 _].
    rewrite E1 in H1. cbn [snd] in H1.
    destruct (only_adds_keeps_config w1
               (analyzeMainDesignChoices_quiet image None)) as [H2 _].
    rewrite E2 in H2. cbn [snd] in H2.
    destruct (only_adds_keeps_config w2 (describeActivity_quiet image))
      as [H3 _].
    rewrite E3 in H3. cbn [snd] in H3.
    destruct (only_adds_keeps_config w3
               (analyze_each_any image (d :: ds) 0 [])) as [H4 _].
    rewrite E4 in H4. cbn [snd] in H4. congruence. }
  rewrite (callSuperPrompt_component_response _ _ _ _ _ Hterm4).
  intros H. apply returned_eq in H. destruct H as [<- <-].
  right. split; [discriminate | reflexivity].
Qed.

(** X13: with the detection term ['component'], [processImage] never throws
    and its result is of one of two kinds: no component analyses and the
    final analysis "Error during analysis", or at least one component
    analysis and the fixed mock response as final analysis. *)
Theorem processImage_two_outcomes
    (image : Image) (minArea : value) (maxDetections : option Z) (w : World) :
  DETECTION_TERM w = lit "component" ->
  exists r w',
    processImage image minArea maxDetections w = (Ok r, w')
    /\ ((componentAnalyses r = []
         /\ finalAnalysis r = lit "Error during analysis")
        \/ (componentAnalyses r <> [] /\ finalAnalysis r = mock_response)).
Proof. exact (@processImage_two_outcomes_shared image minArea maxDetections w). Qed.

Lemma requests_app (a b : list Event) :
  requests (a ++ b) = requests a ++ requests b.
Proof.
  induction a as [|e a IH]; simpl; [reflexivity|].
  destruct e; simpl; now rewrite IH.
Qed.

Lemma stages_app (a b : list Event) : stages (a ++ b) = stages a ++ stages b.
Proof.
  induction a as [|e a IH]; simpl; [reflexivity|].
  destruct e; simpl; now rewrite IH.
Qed.

Lemma ready_with_trace image (w : World) t :
  ready image w -> ready image (with_trace w t).
Proof. intros H; exact H. Qed.

(** A stage that records its entry and then makes one Gateway call. *)
Lemma entered_call_events image sys usr temp json mdl (e : Event) (w : World) :
  ready image w ->
  exists req,
    snd (callVisionAPI image sys usr temp json mdl (snd (emit e w)))
    = with_trace w (trace w ++ [e; Fetch req]).
Proof.
  intros Hr.
  destruct (@callVisionAPI_ready image sys usr temp json mdl
              (snd (emit e w)) Hr) as [req [Hw _]].
  exists req. rewrite Hw. unfold with_trace, emit; simpl.
  now rewrite <- app_assoc.
Qed.

Lemma getComponents_events method image cap (w : World) :
  ready image w ->
  exists req,
    snd (getComponents (createDetector method image cap) w)
    = with_trace w (trace w ++ [Enter_getComponents; Fetch req]).
Proof.
  intros Hr. rewrite getComponents_unfold. cbv zeta. unfold detector_reply.
  match goal with |- context [callVisionAPI ?a ?b ?c ?d ?e ?f (snd (emit ?ev w))] =>
    destruct (@entered_call_events a b c d e f ev w Hr) as [req Hreq];
    destruct (callVisionAPI a b c d e f (snd (emit ev w))) as [[r|e0] w1]
  end; exists req; exact Hreq.
Qed.

Lemma getComponents_found_ready method image cap (w w1 : World) d ds :
  getComponents (createDetector method image cap) w = (Ok (d :: ds), w1) ->
  ready image w.
Proof.
  rewrite getComponents_unfold. cbv zeta. unfold detector_reply.
  match goal with |- context [callVisionAPI ?a ?b ?c ?d ?e ?f ?g] =>
    destruct (callVisionAPI a b c d e f g) as [[r|e0] w2] eqn:E end;
    [|discriminate].
  intros _. exact (@callVisionAPI_ok_ready _ _ _ _ _ _ _ _ _ E).
Qed.

Lemma analyzeMainDesignChoices_events image temp (w : World) :
  ready image w ->
  exists req,
    snd (analyzeMainDesignChoices image temp w)
    = with_trace w (trace w ++ [Enter_analyzeMainDesignChoices; Fetch req]).
Proof.
  intros Hr. unfold analyzeMainDesignChoices. cbv zeta.
  cbv beta iota delta [bind try_catch ret].
  change (emit Enter_analyzeMainDesignChoices w)
    with (@Ok unit tt, snd (emit Enter_analyzeMainDesignChoices w)).
  cbv beta iota.
  match goal with |- context [callVisionAPI ?a ?b ?c ?d ?e ?f (snd (emit ?ev w))] =>
    destruct (@entered_call_events a b c d e f ev w Hr) as [req Hreq];
    destruct (callVisionAPI a b c d e f (snd (emit ev w))) as [[r|e0] w1]
  end; exists req; exact Hreq.
Qed.

Lemma describeActivity_events image (w : World) :
  ready image w ->
  exists req,
    snd (describeActivity image w)
    = with_trace w (trace w ++ [Enter_describeActivity; Fetch req]).
Proof.
  intros Hr. unfold describeActivity.
  cbv beta iota delta [bind].
  change (emit Enter_describeActivity w)
    with (@Ok unit tt, snd (emit Enter_describeActivity w)).
  cbv beta iota. apply entered_call_events. exact Hr.
Qed.

Lemma analyzeDetection_events image index location label (w : World) :
  ready image w ->
  ToString location = Ok label ->
  exists req,
    snd (analyzeDetection image index location w)
    = with_trace w (trace w ++ [Enter_analyzeDetection index location; Fetch req]).
Proof.
  intros Hr Hl. rewrite analyzeDetection_unfold, Hl.
  match goal with |- context [callVisionAPI ?a ?b ?c ?d ?e ?f (snd (emit ?ev w))] =>
    destruct (@entered_call_events a b c d e f ev w Hr) as [req Hreq];
    destruct (callVisionAPI a b c d e f (snd (emit ev w))) as [[r|e0] w1]
  end; exists req; exact Hreq.
Qed.

Lemma analysis_events_stages (detections : list UIDetection) :
  forall i sent,
    length sent = length detections ->
    stages (analysis_events i detections sent)
    = mapi_from (fun d j => Enter_analyzeDetection j (text d)) i detections.
Proof.
  induction detections as [|d ds IH]; intros i [|q qs] Hlen;
    try discriminate; [reflexivity|].
  simpl. f_equal. apply IH. simpl in Hlen. congruence.
Qed.

Lemma analysis_events_requests (detections : list UIDetection) :
  forall i sent,
    length sent = length detections ->
    requests (analysis_events i detections sent) = sent.
Proof.
  induction detections as [|d ds IH]; intros i [|q qs] Hlen;
    try discriminate; [reflexivity|].
  simpl. f_equal. apply IH. simpl in Hlen. congruence.
Qed.

Lemma analyze_each_events image (detections : list UIDetection) :
  forall i acc (w w' : World) res,
    ready image w ->
    analyze_each image detections i acc w = (Ok res, w') ->
    exists sent,
      length sent = length detections
      /\ w' = with_trace w (trace w ++ analysis_events i detections sent).
Proof.
  induction detections as [|d ds IH]; intros i acc w w' res Hr; simpl.
  - unfold ret. intros H; inversion H; subst.
    exists []. split; [reflexivity|]. now rewrite with_trace_nil.
  - unfold bind.
    destruct (analyzeDetection image i (text d) w) as [[s|e] w1] eqn:E;
      [|discriminate].
    destruct (analyzeDetection_step _ _ _ _ E) as [[label [Hl _]] _].
    destruct (@analyzeDetection_events image i (text d) label w Hr Hl)
      as [req Hreq].
    rewrite E in Hreq. cbn [snd] in Hreq. subst w1. intros H.
    destruct (IH _ _ _ _ _ (@ready_with_trace image w _ Hr) H)
      as [qs [Hlen ->]].
    exists (req :: qs). split; [simpl; now rewrite Hlen|].
    now rewrite with_trace_app.
Qed.

(** X14: the history of a run that completes with [n > 0] detections is
    exactly this: the entry of the detector and its one request; the entry
    of the Design Analyzer and its one request; the entry of the Activity
    Describer and its one request; for every detection, in detection order,
    the entry of the Component Analyzer directly followed by the one request
    of that analysis; and last the entry of the Prompt Synthesizer, once,
    with the very design summary and component analyses that the result
    carries, and nothing after it.  So [n + 3] requests are sent, each by
    the stage entered just before it, none by the synthesizer. *)
Theorem processImage_complete_run_history
    (image : Image) (minArea : value) (maxDetections : option Z)
    (w w1 w' : World) (detections : list UIDetection) (r : AnalysisResponse) :
  getComponents
    (createDetector (DETECTION_METHOD w) image
       (Some (match maxDetections with
              | Some n => n
              | None => MAX_UI_COMPONENTS
              end))) w
  = (Ok detections, w1) ->
  detections <> [] ->
  processImage_try image minArea maxDetections w = (Ok r, w') ->
  exists evs activity detect design describe sent,
    w' = with_trace w (trace w ++ evs)
    /\ evs
       = Enter_getComponents :: Fetch detect
         :: Enter_analyzeMainDesignChoices :: Fetch design
         :: Enter_describeActivity :: Fetch describe
         :: analysis_events 0 detections sent
         ++ [Enter_callSuperPrompt (mainDesign r) (componentAnalyses r)
                                   activity]
    /\ length sent = length detections
    /\ stages evs
       = Enter_getComponents :: Enter_analyzeMainDesignChoices
         :: Enter_describeActivity
         :: mapi (fun d i => Enter_analyzeDetection i (text d)) detections
         ++ [Enter_callSuperPrompt (mainDesign r) (componentAnalyses r)
                                   activity]
    /\ requests evs = detect :: design :: describe :: sent
    /\ length (requests evs) = (length detections + 3)%nat.
Proof.
  intros Hdet Hne Htry.
  destruct detections as [|d ds]; [contradiction|].
  pose proof (@getComponents_found_ready _ _ _ _ _ _ _ Hdet) as Hr.
  destruct (@getComponents_events (DETECTION_METHOD w) image
              (Some (match maxDetections with
                     | Some n => n
                     | None => MAX_UI_COMPONENTS
                     end)) w Hr) as [q1 H1].
  rewrite Hdet in H1. cbn [snd] in H1. subst w1.
  revert Htry.
  unfold processImage_try, bind, getSplittingMode, gets. cbv zeta.
  rewrite Hdet.
  match goal with |- context [analyzeMainDesignChoices image None ?w0] =>
    assert (Hr1 : ready image w0) by exact Hr;
    destruct (@analyzeMainDesignChoices_events image None w0 Hr1) as [q2 H2];
    destruct (analyzeMainDesignChoices image None w0) as [[main|e] w2];
    [|discriminate]
  end.
  cbn [snd] in H2. rewrite with_trace_app in H2. subst w2.
  match goal with |- context [describeActivity image ?w0] =>
    assert (Hr2 : ready image w0) by exact Hr;
    destruct (@describeActivity_events image w0 Hr2) as [q3 H3];
    destruct (describeActivity image w0) as [[act|e] w3]; [|discriminate]
  end.
  cbn [snd] in H3. rewrite with_trace_app in H3. subst w3.
  match goal with |- context [analyze_each image ?l 0 [] ?w0] =>
    assert (Hr3 : ready image w0) by exact Hr;
    destruct (analyze_each image l 0%nat [] w0) as [[res|e] w4] eqn:E4;
    [|discriminate]
  end.
  destruct (@analyze_each_events _ _ _ _ _ _ _ Hr3 E4) as [qs [Hlen Hw4]].
  rewrite with_trace_app in Hw4. subst w4.
  rewrite callSuperPrompt_unfold. unfold ret.
  intros H. apply returned_eq in H. destruct H as [<- <-].
  cbn [mainDesign componentAnalyses].
  eexists. exists act, q1, q2, q3, qs. split; [|split; [reflexivity|]].
  - unfold emit, with_trace; cbn [trace snd]. rewrite <- !app_assoc.
    reflexivity.
  - split; [exact Hlen|].
    cbn [stages requests]. rewrite stages_app, requests_app.
    rewrite (analysis_events_stages _ _ _ Hlen).
    rewrite (analysis_events_requests _ _ _ Hlen).
    cbn [stages requests]. rewrite app_nil_r.
    split; [reflexivity|]. split; [reflexivity|].
    cbn [length]. rewrite Hlen. cbn [length]. lia.
Qed.

(** ** The entry point of the interface *)

(** X15: [reactProcessImage] never throws.  It stores the given splitting
    mode and the term ['component'], and runs [processImage] in that
    configuration; its [finalAnalysis] is that run's, so it is either
    "Error during analysis" or the fixed mock response; its [output] puts
    the run's design summary under the first heading, every component
    analysis under a "Component" heading numbered from 0, and the final
    analysis last; and a visualization is always announced. *)
Theorem reactProcessImage_outcome
    (image : Image) (splittingMode : DetectionMethod)
    (maxComponents : option Z) (w : World) :
  exists res r w',
    reactProcessImage image splittingMode maxComponents w = (Ok res, w')
    /\ processImage image VUndefined
         (Some (match maxComponents with
                | Some n => n
                | None => MAX_UI_COMPONENTS
                end))
         (snd (setSplittingMode splittingMode w))
       = (Ok r, w')
    /\ DETECTION_METHOD w' = splittingMode
    /\ DETECTION_TERM w' = lit "component"
    /\ React.finalAnalysis res = finalAnalysis r
    /\ (React.finalAnalysis res = lit "Error during analysis"
        \/ React.finalAnalysis res = mock_response)
    /\ React.output res
       = lit "**Main Design Choices:**
" ++ mainDesign r ++ lit "

**Component Analysis:**
"
         ++ concat
              (mapi (fun analysis i =>
                       lit "**Component " ++ string_of_index i ++ lit ":** "
                       ++ analysis ++ lit "
") (componentAnalyses r))
         ++ lit "
**Final Analysis:**
" ++ finalAnalysis r
    /\ React.visualizationImage res = Some (lit "visualization_image_url").
Proof.
  set (cap := match maxComponents with
              | Some n => n
              | None => MAX_UI_COMPONENTS
              end).
  set (w0 := snd (setSplittingMode splittingMode w)).
  assert (H0 : setSplittingMode splittingMode w = (Ok tt, w0)) by reflexivity.
  assert (Hterm0 : DETECTION_TERM w0 = lit "component") by reflexivity.
  destruct (@processImage_two_outcomes_shared image VUndefined (Some cap) w0 Hterm0)
    as [r [w' [Hrun Hkinds]]].
  destruct (only_adds_keeps_config w0 (processImage_any image VUndefined (Some cap)))
    as [Ht [Hm _]].
  rewrite Hrun in Ht, Hm. cbn [snd] in Ht, Hm.
  eexists. exists r, w'. split.
  { unfold reactProcessImage. cbv zeta. fold cap.
    cbv beta iota delta [bind getDetectionTerm gets ret].
    rewrite H0. cbv beta iota. rewrite Hrun. cbv beta iota. reflexivity. }
  split; [exact Hrun|].
  split; [rewrite Hm; reflexivity|].
  split; [rewrite Ht; exact Hterm0|].
  cbn [React.finalAnalysis React.output React.visualizationImage].
  split; [reflexivity|].
  split; [destruct Hkinds as [[_ H]|[_ H]]; rewrite H; [left | right]; reflexivity|].
  split; [|reflexivity].
  rewrite Ht, Hterm0. rewrite <- !app_assoc. reflexivity.
Qed.

End Properties.

(** * The statements at sample inputs *)

Import Sample.

Example parse_reply_none :
  parse reply_none = Some (VObj [(lit "components", VArr [])]).
Proof. vm_compute. reflexivity. Qed.

Example parse_nested :
  parse (lit " [1, -20, [true, null], {}] ")
  = Some (VArr [VNum 1%Z; VNum (-20)%Z; VArr [VBool true; VNull]; VObj []]).
Proof. vm_compute. reflexivity. Qed.

Example parse_refuses :
  parse (lit "{") = None /\ parse (lit "[1,]") = None
  /\ parse (lit "Here are the components: []") = None.
Proof. repeat split; vm_compute; reflexivity. Qed.

Example getComponents_three :
  fst (getComponents (createDetector llm tt None) world_three)
  = Ok three_detections.
Proof. vm_compute. reflexivity. Qed.

Example getComponents_three_cap_2 :
  fst (getComponents (createDetector llm tt (Some 2%Z)) world_three)
  = Ok (firstn 2 three_detections).
Proof. vm_compute. reflexivity. Qed.

Example processImage_three :
  fst (processImage tt VUndefined None world_three) = Ok three_result.
Proof. vm_compute. reflexivity. Qed.

Example processImage_down :
  fst (processImage tt VUndefined None world_down)
  = Ok {| mainDesign := lit "No components detected.";
          componentAnalyses := [];
          finalAnalysis := lit "Error during analysis" |}.
Proof. vm_compute. reflexivity. Qed.

Example processImage_detect_only :
  fst (processImage tt VUndefined None world_detect_only) = Ok error_result.
Proof. vm_compute. reflexivity. Qed.

(** C1, at [world_none]. *)
Lemma processImage_no_detections_witness :
  getComponents (createDetector llm tt (Some 6%Z)) world_none
  = (Ok [], snd (getComponents (createDetector llm tt (Some 6%Z)) world_none))
  /\ fst (processImage tt VUndefined None world_none)
     = Ok {| mainDesign := lit "No components detected.";
             componentAnalyses := [];
             finalAnalysis := lit "Error during analysis" |}
  /\ analyzer_calls
       (trace (snd (processImage tt VUndefined None world_none))) = []
  /\ synthesizer_calls
       (trace (snd (processImage tt VUndefined None world_none))) = [].
Proof.
  assert (H : getComponents (createDetector llm tt (Some 6%Z)) world_none
              = (Ok [], snd (getComponents (createDetector llm tt (Some 6%Z))
                                           world_none)))
    by (vm_compute; reflexivity).
  split; [exact H|].
  destruct (@processImage_no_detections Z_number platform tt VUndefined None _ _ H)
    as [Hr [Ha Hs]].
  rewrite Hr. cbn [fst snd]. rewrite Ha, Hs.
  repeat split; reflexivity.
Defined.

(** C1 as stated fails at [world_none]: the detector returns no detections
    and the result's [componentAnalyses] is the empty list, which carries no
    text at all. *)
Lemma processImage_no_detections_counterexample :
  fst (getComponents (createDetector llm tt (Some 6%Z)) world_none) = Ok []
  /\ exists r,
       fst (processImage tt VUndefined None world_none) = Ok r
       /\ componentAnalyses r = []
       /\ ~ some_carries_text (componentAnalyses r).
Proof.
  split; [vm_compute; reflexivity|].
  eexists. split; [vm_compute; reflexivity|].
  split; [reflexivity|].
  intros [s [[] _]].
Qed.

(** C2 as stated fails: the text [callSuperPrompt] returns begins with the
    mock lead-in, not with "Build this app: ". *)
Lemma callSuperPrompt_counterexample :
  fst (callSuperPrompt (lit "Grid layout") [lit "[Location: top]
A button"] (lit "A login page") world_down)
  = Ok (lit "This is a mock super prompt response based on: Build this app: [Component Analysis]
    Component...")
  /\ starts_withb (lit "Build this app: ")
       (lit "This is a mock super prompt response based on: Build this app: [Component Analysis]
    Component...") = false.
Proof. split; vm_compute; reflexivity. Qed.

(** C3, at [world_design_fails], where only the design call fails, and at
    [world_detect_only], where the activity call fails. *)
Lemma design_sentinel_activity_propagates_witness :
  (fst (design_reply tt (1 # 10)%Q world_design_fails)
   = Throw (Error (lit "Failed to fetch"))
   /\ fst (activity_reply tt world_design_fails) = Ok (lit "ok")
   /\ fst (analyzeMainDesignChoices tt None world_design_fails)
      = Ok (lit "Error analyzing main design structure"))
  /\ (fst (activity_reply tt world_detect_only)
      = Throw (Error (lit "Failed to fetch"))
      /\ fst (describeActivity tt world_detect_only)
         = Throw (Error (lit "Failed to fetch"))).
Proof.
  assert (H1 : design_reply tt (1 # 10)%Q world_design_fails
               = (Throw (Error (lit "Failed to fetch")),
                  snd (design_reply tt (1 # 10)%Q world_design_fails)))
    by (vm_compute; reflexivity).
  assert (H2 : activity_reply tt world_detect_only
               = (Throw (Error (lit "Failed to fetch")),
                  snd (activity_reply tt world_detect_only)))
    by (vm_compute; reflexivity).
  split.
  - destruct (@design_sentinel_activity_propagates Z_number platform tt None
                world_design_fails
                (snd (@design_reply Z_number platform tt (1 # 10)%Q
                        world_design_fails))
                world_design_fails
                (Error (lit "Failed to fetch")) TypeError) as [Hd _].
    rewrite (Hd H1), H1. cbn [fst].
    repeat split; vm_compute; reflexivity.
  - destruct (@design_sentinel_activity_propagates Z_number platform tt None
                world_detect_only world_detect_only
                (snd (@activity_reply Z_number platform tt world_detect_only))
                TypeError (Error (lit "Failed to fetch"))) as [_ Ha].
    rewrite (Ha H2), H2. cbn [fst]. split; reflexivity.
Defined.

(** C3 as stated fails for the Activity Describer: at [world_detect_only]
    its Gateway call fails and [describeActivity] throws that exception
    instead of returning a string. *)
Lemma describeActivity_counterexample :
  fst (activity_reply tt world_detect_only)
  = Throw (Error (lit "Failed to fetch"))
  /\ fst (describeActivity tt world_detect_only)
     = Throw (Error (lit "Failed to fetch")).
Proof. split; vm_compute; reflexivity. Qed.

(** C4, with a cap of two and three components in the reply. *)
Lemma getComponents_at_most_cap_witness :
  (1 <= 2)%Z
  /\ exists ds w',
       getComponents (createDetector llm tt (Some 2%Z)) world_three = (Ok ds, w')
       /\ (Z.of_nat (length ds) <= 2)%Z.
Proof.
  split; [lia|].
  apply (@getComponents_at_most_cap Z_number platform llm tt 2%Z world_three). lia.
Defined.

(** C5, with a reply that is not JSON. *)
Lemma getComponents_empty_on_bad_reply_witness :
  fst (detector_reply tt 6%Z (world key (provider_up (lit "not json") [])))
  = Ok (lit "not json")
  /\ JSON_parse (lit "not json") = None
  /\ fst (getComponents (createDetector llm tt None)
            (world key (provider_up (lit "not json") [])))
     = Ok [].
Proof.
  assert (H : detector_reply tt 6%Z (world key (provider_up (lit "not json") []))
              = (Ok (lit "not json"),
                 snd (detector_reply tt 6%Z
                        (world key (provider_up (lit "not json") [])))))
    by (vm_compute; reflexivity).
  assert (Hp : JSON_parse (lit "not json") = None) by (vm_compute; reflexivity).
  rewrite (@getComponents_empty_on_bad_reply Z_number platform llm tt None _ _ _ H
             (or_introl Hp)).
  rewrite H. repeat split.
Defined.

(** C6, on the item [{}] at index 3. *)
Lemma toDetection_defaults_witness :
  toDetection (lit "component") (VObj []) 3
  = Ok {| type := VStr (lit "component");
          bbox := VArr [VNum 0%Z; VNum 0%Z; VNum 0%Z; VNum 0%Z];
          confidence := VNum 1%Z;
          text := VStr (lit "component 3") |}.
Proof.
  destruct (@toDetection_defaults Z_number (lit "component") [] 3)
    as [d [Hd [Hc [Ht [_ Hb]]]]].
  rewrite Hd. destruct d as [ty bb cf tx]; simpl in *.
  specialize (Hc eq_refl). destruct (Ht eq_refl) as [_ Ht2].
  specialize (Ht2 eq_refl).
  destruct Hb as [_ Hb]; [intros a; discriminate|].
  assert (Hb' : bb = zero_box) by (apply Hb; [intros o; discriminate | reflexivity]).
  clear Hb.
  subst. f_equal. f_equal.
  vm_compute in Hd. now inversion Hd.
Defined.

(** C6 as stated fails at [world_three].  The first item of [reply_three]
    has the two-element array [[1, 2]] under [bbox] (no four-element array,
    no object) and its detection keeps [[1, 2]] instead of four zeros; the
    third item has the object form under [bbox] and its detection has four
    zeros instead of [(1, 2, 3, 4)]. *)
Lemma getComponents_bbox_counterexample :
  fst (getComponents (createDetector llm tt None) world_three)
  = Ok three_detections
  /\ option_map bbox (nth_error three_detections 0)
     = Some (VArr [VNum 1%Z; VNum 2%Z])
  /\ option_map bbox (nth_error three_detections 2)
     = Some (VArr [VNum 0%Z; VNum 0%Z; VNum 0%Z; VNum 0%Z])
  /\ (exists item rest,
        option_map (fun v => member v "components") (parse reply_three)
        = Some (VArr (item :: rest))
        /\ member item "bbox" = VArr [VNum 1%Z; VNum 2%Z]
        /\ member item "box" = VUndefined
        /\ nth_error rest 1
           = Some (VObj [(lit "bbox",
                          VObj [(lit "height", VNum 4%Z);
                                (lit "width", VNum 3%Z);
                                (lit "y", VNum 2%Z);
                                (lit "x", VNum 1%Z)])])).
Proof.
  split; [vm_compute; reflexivity|].
  split; [reflexivity|]. split; [reflexivity|].
  eexists; eexists. split; [vm_compute; reflexivity|].
  repeat split; reflexivity.
Qed.

(** C7, at [world_three]. *)
Lemma processImage_one_analysis_per_detection_witness :
  fst (getComponents (createDetector llm tt (Some 6%Z)) world_three)
  = Ok three_detections
  /\ three_detections <> []
  /\ fst (processImage_try tt VUndefined None world_three) = Ok three_result
  /\ fst (processImage tt VUndefined None world_three) = Ok three_result
  /\ length (componentAnalyses three_result) = 3%nat
  /\ analyzer_calls
       (trace (snd (processImage_try tt VUndefined None world_three)))
     = [(0%nat, VStr (lit "Save")); (1%nat, VStr (lit "top left"));
        (2%nat, VStr (lit "component 2"))].
Proof.
  assert (H1 : getComponents (createDetector llm tt (Some 6%Z)) world_three
               = (Ok three_detections,
                  snd (getComponents (createDetector llm tt (Some 6%Z))
                                     world_three)))
    by (vm_compute; reflexivity).
  assert (H2 : three_detections <> []) by discriminate.
  assert (H3 : processImage_try tt VUndefined None world_three
               = (Ok three_result,
                  snd (processImage_try tt VUndefined None world_three)))
    by (vm_compute; reflexivity).
  destruct (@processImage_one_analysis_per_detection
              Z_number platform tt VUndefined None _ _ _ _ _ H1 H2 H3)
    as [Hp [Hl [Ha _]]].
  rewrite H1, Hp, Ha. cbn [fst].
  repeat split; try reflexivity; try assumption.
Defined.

(** C8, with the argument ['invalid'] and with ['extensive']. *)
Lemma setPromptChoice_validates_witness :
  setPromptChoice (VStr (lit "invalid")) world_down
  = (Throw invalid_prompt_choice, world_down)
  /\ fst (setPromptChoice (VStr (lit "extensive")) world_down) = Ok tt
  /\ PROMPT_CHOICE (snd (setPromptChoice (VStr (lit "extensive")) world_down))
     = VStr (lit "extensive").
Proof.
  destruct (@setPromptChoice_validates Z_number (VStr (lit "invalid")) world_down)
    as [Hbad _].
  destruct (@setPromptChoice_validates Z_number (VStr (lit "extensive")) world_down)
    as [_ Hgood].
  split; [apply Hbad; discriminate|].
  destruct Hgood as [Hset _]; [right; reflexivity|].
  rewrite Hset. split; reflexivity.
Defined.

(** C9, at [world_three] with the label "top left". *)
Lemma analyzeDetection_location_marker_witness :
  fst (analyzeDetection tt 1 (VStr (lit "top left")) world_three)
  = Ok (lit "[Location: top left]
ok")
  /\ fst (analyzer_reply tt 1 (VStr (lit "top left")) world_three)
     = Ok (lit "ok").
Proof.
  assert (H : analyzeDetection tt 1 (VStr (lit "top left")) world_three
              = (Ok (lit "[Location: top left]
ok"), snd (analyzeDetection tt 1 (VStr (lit "top left")) world_three)))
    by (vm_compute; reflexivity).
  destruct (@analyzeDetection_location_marker Z_number platform tt 1%nat (lit "top left")
              _ _ _ H) as [raw [Hr Hraw]].
  rewrite H, Hr. split; [reflexivity|].
  cbn [fst]. f_equal.
  apply (app_inv_head (lit "[Location: " ++ lit "top left" ++ lit "]" ++ [LF])).
  rewrite <- !app_assoc. rewrite <- Hraw. vm_compute. reflexivity.
Defined.

(** The templates have the length of their source text (without the
    interpolated parts), and the cleaning keeps the section headings. *)
Example template_lengths :
  length (concise_template [] [] [] []) = 1126%nat
  /\ length (extensive_template [] [] [] []) = 2481%nat.
Proof. split; vm_compute; reflexivity. Qed.

Example cleanedPrompt_sample :
  firstn 63
    (cleanedPrompt
       (concise_template (lit "component")
          (regionSpecs (lit "component") [lit "A"; lit "B"])
          (layoutSection []) (lit "Login")))
  = lit "[Component Analysis]
    Component 1: A
Component 2: B
    [Lay".
Proof. vm_compute. reflexivity. Qed.

(** * The further properties at sample inputs *)

Import SampleRuns.

Example parse_reply_three : parse reply_three = Some (VObj three_fields).
Proof. vm_compute. reflexivity. Qed.

Example parse_reply_with_null :
  parse reply_with_null = Some (VObj null_fields).
Proof. vm_compute. reflexivity. Qed.

Example processImage_second_analysis_fails :
  fst (processImage tt VUndefined None world_second_analysis_fails)
  = Ok error_result.
Proof. vm_compute. reflexivity. Qed.

(** X3, with two descriptions. *)
Lemma regionSpecs_numbered_lines_witness :
  split LF (regionSpecs (lit "component") [lit "A button"; lit "A field"])
  = [lit "Component 1: A button"; lit "Component 2: A field"].
Proof.
  destruct (@regionSpecs_numbered_lines (lit "component")
              [lit "A button"; lit "A field"]) as [H _].
  - discriminate.
  - intros H. vm_compute in H. intuition discriminate.
  - repeat constructor; intros H; vm_compute in H; intuition discriminate.
  - rewrite H. vm_compute. reflexivity.
Defined.

(** X4, with two different sets of arguments. *)
Lemma callSuperPrompt_constant_response_witness :
  fst (callSuperPrompt (lit "Grid layout") [lit "A button"] (lit "A login page")
         world_three)
  = fst (callSuperPrompt [] [lit "x"; lit "y"] (lit "Something else")
           world_three).
Proof.
  rewrite (@callSuperPrompt_constant_response Z_number (lit "Grid layout")
             (lit "A button") [] (lit "A login page") world_three eq_refl).
  rewrite (@callSuperPrompt_constant_response Z_number [] (lit "x") [lit "y"]
             (lit "Something else") world_three eq_refl).
  reflexivity.
Defined.

(** X5, without a key and with one. *)
Lemma callVisionAPI_key_gate_witness :
  callVisionAPI tt VISION_ANALYSIS_PROMPT (UserText (lit "hello")) (1 # 10)%Q
    true gpt_4o world_no_key
  = (Throw key_error, world_no_key)
  /\ requests
       (trace (snd (callVisionAPI tt VISION_ANALYSIS_PROMPT
                      (UserText (lit "hello")) (1 # 10)%Q true gpt_4o
                      world_three)))
     = [ {| url := lit "https://api.openai.com/v1/chat/completions";
            bearer := lit "sk-test";
            model := lit "gpt-4o";
            system := VISION_ANALYSIS_PROMPT;
            user := UserText (lit "hello");
            image_base64 := lit "iVBORw0KGgo=";
            max_tokens := 1024;
            temperature := (1 # 10)%Q;
            json_object := true |} ].
Proof.
  destruct (@callVisionAPI_key_gate Z_number platform tt VISION_ANALYSIS_PROMPT
              (UserText (lit "hello")) (1 # 10)%Q true gpt_4o world_no_key
              (lit "iVBORw0KGgo=") eq_refl) as [c [Hc [Hno _]]].
  split.
  - apply Hno. inversion Hc. reflexivity.
  - vm_compute. reflexivity.
Defined.

(** X6, on a reply with white space around it. *)
Lemma callVisionAPI_result_trimmed_witness :
  fst (callVisionAPI tt VISION_ANALYSIS_PROMPT (UserText (lit "hello"))
         (1 # 10)%Q true gpt_4o world_three) = Ok (lit "ok")
  /\ trimmed (lit "ok").
Proof.
  assert (H : callVisionAPI tt VISION_ANALYSIS_PROMPT (UserText (lit "hello"))
                (1 # 10)%Q true gpt_4o world_three
              = (Ok (lit "ok"),
                 snd (callVisionAPI tt VISION_ANALYSIS_PROMPT
                        (UserText (lit "hello")) (1 # 10)%Q true gpt_4o
                        world_three)))
    by (vm_compute; reflexivity).
  split; [rewrite H; reflexivity|].
  exact (@callVisionAPI_result_trimmed Z_number platform _ _ _ _ _ _ _ _ _ H).
Defined.

(** X7, at [world_three]. *)
Lemma getComponents_detections_well_formed_witness :
  fst (getComponents (createDetector llm tt None) world_three)
  = Ok three_detections
  /\ Forall (fun d => isArray (bbox d) = true
                      /\ truthy (type d) = true /\ truthy (text d) = true)
            three_detections.
Proof.
  assert (H : getComponents (createDetector llm tt None) world_three
              = (Ok three_detections,
                 snd (getComponents (createDetector llm tt None) world_three)))
    by (vm_compute; reflexivity).
  split; [rewrite H; reflexivity|].
  exact (@getComponents_detections_well_formed Z_number platform _ _ _ _ _ _ H).
Defined.

(** X8, at [world_null]. *)
Lemma getComponents_null_item_discards_all_witness :
  In VNull (firstn 6 null_items)
  /\ fst (getComponents (createDetector llm tt (Some 6%Z)) world_null) = Ok [].
Proof.
  assert (Hin : In VNull (firstn (Z.to_nat 6) null_items))
    by (right; left; reflexivity).
  split; [exact Hin|].
  assert (H : detector_reply tt 6%Z world_null
              = (Ok reply_with_null, snd (detector_reply tt 6%Z world_null)))
    by (vm_compute; reflexivity).
  assert (Hp : JSON_parse reply_with_null = Some (VObj null_fields))
    by (vm_compute; reflexivity).
  rewrite (@getComponents_null_item_discards_all Z_number platform llm tt 6%Z
             _ _ _ _ _ ltac:(lia) H Hp eq_refl Hin).
  reflexivity.
Defined.

(** X9, with the cap -1 at [world_three]. *)
Lemma getComponents_negative_cap_witness :
  (-1 < 0)%Z
  /\ fst (getComponents (createDetector llm tt (Some (-1)%Z)) world_three)
     = Ok (firstn 2 three_detections).
Proof.
  split; [lia|].
  assert (H : detector_reply tt (-1)%Z world_three
              = (Ok reply_three, snd (detector_reply tt (-1)%Z world_three)))
    by (vm_compute; reflexivity).
  assert (Hp : JSON_parse reply_three = Some (VObj three_fields))
    by (vm_compute; reflexivity).
  destruct (@getComponents_negative_cap Z_number platform llm tt (-1)%Z
              _ _ _ _ _ _ ltac:(lia) H Hp eq_refl
              ltac:(repeat constructor)) as [ds [Hds Hlen]].
  rewrite Hds. cbn [fst]. vm_compute in Hds. inversion Hds. reflexivity.
Defined.

(** X10, at [world_no_key]. *)
Lemma processImage_without_key_witness :
  processImage tt VUndefined None world_no_key
  = (Ok no_detections_result,
     with_trace world_no_key [Enter_getComponents]).
Proof.
  rewrite (@processImage_without_key Z_number platform tt VUndefined None
             world_no_key (or_introl eq_refl)).
  reflexivity.
Defined.

(** X11, at [world_detect_only]. *)
Lemma processImage_activity_failure_aborts_witness :
  getComponents (createDetector llm tt (Some 6%Z)) world_detect_only
  = (Ok three_detections, detect_only_detected)
  /\ three_detections <> []
  /\ describeActivity tt
       (snd (analyzeMainDesignChoices tt None detect_only_detected))
     = (Throw (Error (lit "Failed to fetch")), detect_only_described)
  /\ processImage tt VUndefined None world_detect_only
     = (Ok error_result, detect_only_described)
  /\ analyzer_calls (trace detect_only_described)
     = analyzer_calls (trace world_detect_only)
  /\ synthesizer_calls (trace detect_only_described)
     = synthesizer_calls (trace world_detect_only).
Proof.
  assert (H1 : getComponents (createDetector llm tt (Some 6%Z)) world_detect_only
               = (Ok three_detections, detect_only_detected))
    by (vm_compute; reflexivity).
  assert (H0 : three_detections <> []) by discriminate.
  assert (H2 : describeActivity tt
                 (snd (analyzeMainDesignChoices tt None detect_only_detected))
               = (Throw (Error (lit "Failed to fetch")), detect_only_described))
    by (vm_compute; reflexivity).
  split; [exact H1|]. split; [exact H0|]. split; [exact H2|].
  exact (@processImage_activity_failure_aborts Z_number platform tt
           VUndefined None world_detect_only detect_only_detected
           detect_only_described three_detections _ H1 H0 H2).
Defined.

(** X12, at [world_second_analysis_fails]. *)
Lemma processImage_analysis_failure_aborts_witness :
  getComponents (createDetector llm tt (Some 6%Z)) world_second_analysis_fails
  = (Ok three_detections, fails_detected)
  /\ describeActivity tt (snd (analyzeMainDesignChoices tt None fails_detected))
     = (Ok (lit "ok"), fails_described)
  /\ analyze_each tt three_detections 0 [] fails_described
     = (Throw (Error (lit "Failed to fetch")), fails_analyzed)
  /\ processImage tt VUndefined None world_second_analysis_fails
     = (Ok error_result, fails_analyzed)
  /\ synthesizer_calls (trace fails_analyzed)
     = synthesizer_calls (trace world_second_analysis_fails)
  /\ exists k d done wk,
       nth_error three_detections k = Some d
       /\ analyze_each tt (firstn k three_detections) 0 [] fails_described
          = (Ok done, wk)
       /\ length done = k
       /\ analyzeDetection tt k (text d) wk
          = (Throw (Error (lit "Failed to fetch")), fails_analyzed)
       /\ analyzer_calls (trace fails_analyzed)
          = analyzer_calls (trace world_second_analysis_fails)
            ++ mapi (fun d j => (j, text d)) (firstn (S k) three_detections).
Proof.
  assert (H1 : getComponents (createDetector llm tt (Some 6%Z))
                 world_second_analysis_fails
               = (Ok three_detections, fails_detected))
    by (vm_compute; reflexivity).
  assert (H2 : describeActivity tt
                 (snd (analyzeMainDesignChoices tt None fails_detected))
               = (Ok (lit "ok"), fails_described))
    by (vm_compute; reflexivity).
  assert (H3 : analyze_each tt three_detections 0 [] fails_described
               = (Throw (Error (lit "Failed to fetch")), fails_analyzed))
    by (vm_compute; reflexivity).
  split; [exact H1|]. split; [exact H2|]. split; [exact H3|].
  exact (@processImage_analysis_failure_aborts Z_number platform tt
           VUndefined None world_second_analysis_fails fails_detected
           fails_described fails_analyzed three_detections _ _ H1 H2 H3).
Defined.

Example analyzer_calls_second_analysis_fails :
  analyzer_calls (trace fails_analyzed)
  = [(0%nat, VStr (lit "Save")); (1%nat, VStr (lit "top left"))].
Proof. vm_compute. reflexivity. Qed.

(** X13, at [world_three]. *)
Lemma processImage_two_outcomes_witness :
  exists r,
    fst (processImage tt VUndefined None world_three) = Ok r
    /\ componentAnalyses r <> [] /\ finalAnalysis r = mock_response.
Proof.
  destruct (@processImage_two_outcomes Z_number platform tt VUndefined None
              world_three eq_refl) as [r [w' [Hr Hk]]].
  exists r. rewrite Hr. split; [reflexivity|].
  destruct Hk as [[Hnil _] | Hk]; [|exact Hk].
  exfalso. vm_compute in Hr. inversion Hr; subst. discriminate Hnil.
Defined.

(** X14, at [world_three]: six requests for three detections. *)
Lemma processImage_complete_run_history_witness :
  fst (processImage_try tt VUndefined None world_three) = Ok three_result
  /\ length (requests (trace (snd (processImage_try tt VUndefined None
                                     world_three)))) = 6%nat
  /\ stages (trace (snd (processImage_try tt VUndefined None world_three)))
     = [ Enter_getComponents; Enter_analyzeMainDesignChoices;
         Enter_describeActivity;
         Enter_analyzeDetection 0 (VStr (lit "Save"));
         Enter_analyzeDetection 1 (VStr (lit "top left"));
         Enter_analyzeDetection 2 (VStr (lit "component 2"));
         Enter_callSuperPrompt (mainDesign three_result)
           (componentAnalyses three_result) (lit "ok") ].
Proof.
  assert (H1 : getComponents (createDetector llm tt (Some 6%Z)) world_three
               = (Ok three_detections,
                  snd (getComponents (createDetector llm tt (Some 6%Z))
                                     world_three)))
    by (vm_compute; reflexivity).
  assert (H3 : processImage_try tt VUndefined None world_three
               = (Ok three_result,
                  snd (processImage_try tt VUndefined None world_three)))
    by (vm_compute; reflexivity).
  destruct (@processImage_complete_run_history Z_number platform tt
              VUndefined None _ _ _ _ _ H1 ltac:(discriminate) H3)
    as [evs [act [q0 [q1 [q2 [qs [Hw [_ [_ [_ [_ Hq]]]]]]]]]]].
  split; [rewrite H3; reflexivity|]. split.
  - assert (Ht : trace (snd (processImage_try tt VUndefined None world_three))
                 = evs) by (rewrite Hw; reflexivity).
    rewrite Ht, Hq. reflexivity.
  - vm_compute. reflexivity.
Defined.

(** X16, with a cap of two at [world_three]. *)
Lemma getComponents_truncates_witness :
  (0 <= 2)%Z
  /\ fst (getComponents (createDetector llm tt (Some 2%Z)) world_three)
     = Ok (firstn 2 three_detections).
Proof.
  split; [lia|].
  assert (H : detector_reply tt 2%Z world_three
              = (Ok reply_three, snd (detector_reply tt 2%Z world_three)))
    by (vm_compute; reflexivity).
  assert (Hp : JSON_parse reply_three = Some (VObj three_fields))
    by (vm_compute; reflexivity).
  destruct (@getComponents_truncates Z_number platform llm tt 2%Z
              _ _ _ _ _ _ ltac:(lia) H Hp eq_refl
              ltac:(repeat constructor)) as [ds [Hds _]].
  rewrite Hds. cbn [fst]. vm_compute in Hds. inversion Hds. reflexivity.
Defined.

(** X15, at [world_three] whose term is first set to something else. *)
Example reactProcessImage_three :
  fst (reactProcessImage tt llm None world_three)
  = Ok {| React.finalAnalysis := mock_response;
          React.output := lit "**Main Design Choices:**
ok

**Component Analysis:**
**Component 0:** [Location: Save]
ok
**Component 1:** [Location: top left]
ok
**Component 2:** [Location: component 2]
ok

**Final Analysis:**
This is a mock super prompt response based on: Build this app: [Component Analysis]
    Component...";
          React.visualizationImage := Some (lit "visualization_image_url") |}.
Proof. vm_compute. reflexivity. Qed.

(** X15, applied at [world_three] with the mode ['llm'] and the default
    cap. *)
Lemma reactProcessImage_outcome_witness :
  exists res r w',
    reactProcessImage tt llm None world_three = (Ok res, w')
    /\ processImage tt VUndefined (Some MAX_UI_COMPONENTS)
         (snd (setSplittingMode llm world_three))
       = (Ok r, w')
    /\ DETECTION_METHOD w' = llm
    /\ DETECTION_TERM w' = lit "component"
    /\ React.finalAnalysis res = finalAnalysis r
    /\ (React.finalAnalysis res = lit "Error during analysis"
        \/ React.finalAnalysis res = mock_response)
    /\ React.output res
       = lit "**Main Design Choices:**
" ++ mainDesign r ++ lit "

**Component Analysis:**
"
         ++ concat
              (mapi (fun analysis i =>
                       lit "**Component " ++ string_of_index i ++ lit ":** "
                       ++ analysis ++ lit "
") (componentAnalyses r))
         ++ lit "
**Final Analysis:**
" ++ finalAnalysis r
    /\ React.visualizationImage res = Some (lit "visualization_image_url").
Proof.
  exact (@reactProcessImage_outcome Z_number platform tt llm None world_three).
Defined.

(** X17, at [world_unconvertible]. *)
Lemma processImage_label_not_convertible_witness :
  getComponents (createDetector llm tt (Some 6%Z)) world_unconvertible
  = (Ok [unconvertible_detection], unconvertible_detected)
  /\ text unconvertible_detection = VObj [(lit "toString", VNum 1%Z)]
  /\ lookup (lit "toString") [(lit "toString", VNum 1%Z)] = Some (VNum 1%Z)
  /\ describeActivity tt
       (snd (analyzeMainDesignChoices tt None unconvertible_detected))
     = (Ok (lit "ok"), unconvertible_described)
  /\ analyzeDetection tt 0 (text unconvertible_detection)
       unconvertible_described
     = (Throw TypeError,
        with_trace unconvertible_described
          (trace unconvertible_described
           ++ [Enter_analyzeDetection 0 (text unconvertible_detection)]))
  /\ processImage tt VUndefined None world_unconvertible
     = (Ok error_result,
        with_trace unconvertible_described
          (trace unconvertible_described
           ++ [Enter_analyzeDetection 0 (text unconvertible_detection)])).
Proof.
  assert (H1 : getComponents (createDetector llm tt (Some 6%Z))
                 world_unconvertible
               = (Ok [unconvertible_detection], unconvertible_detected))
    by (vm_compute; reflexivity).
  assert (H2 : text unconvertible_detection
               = VObj [(lit "toString", VNum 1%Z)]) by reflexivity.
  assert (H3 : lookup (lit "toString") [(lit "toString", VNum 1%Z)]
               = Some (VNum 1%Z)) by (vm_compute; reflexivity).
  assert (H4 : describeActivity tt
                 (snd (analyzeMainDesignChoices tt None unconvertible_detected))
               = (Ok (lit "ok"), unconvertible_described))
    by (vm_compute; reflexivity).
  split; [exact H1|]. split; [exact H2|]. split; [exact H3|].
  split; [exact H4|].
  exact (@processImage_label_not_convertible Z_number platform tt VUndefined
           None world_unconvertible unconvertible_detected
           unconvertible_described unconvertible_detection [] _ _ _
           H1 H2 H3 H4).
Defined.

(** The requests of the run in [world_unconvertible]: those of the detector,
    the Design Analyzer and the Activity Describer, and no other. *)
Example requests_unconvertible :
  length (requests (trace (snd (processImage tt VUndefined None
                                  world_unconvertible)))) = 3%nat
  /\ analyzer_calls (trace (snd (processImage tt VUndefined None
                                   world_unconvertible)))
     = [(0%nat, unconvertible_label)].
Proof. split; vm_compute; reflexivity. Qed.

(** The conversion of a label at some values: an array is joined with
    commas, [null] in it giving the empty string; an object without a key
    [toString] gives the fixed text; one with that key, also inside an
    array, cannot be converted. *)
Example ToString_samples :
  ToString (VArr [VNum 1%Z; VNull; VStr (lit "a"); VArr [VBool true]])
  = Ok (lit "1,,a,true")
  /\ ToString (VObj [(lit "text", VStr (lit "a"))])
     = Ok (lit "[object Object]")
  /\ ToString unconvertible_label = Throw TypeError
  /\ ToString (VArr [VStr (lit "a"); unconvertible_label]) = Throw TypeError.
Proof. repeat split; vm_compute; reflexivity. Qed.
